(** * LawGeeks-Pro: the retrieval-augmented answer service

    A shallow embedding of [src/api/core/rag_services.py]: the class
    [RAGService] with its constructor, the context formatter
    [_format_docs] and the public operation [answer_user_query].

    The hosted embedding model, the Chroma index and the chat model are
    external collaborators.  They are kept abstract behind the interface
    [Collaborators]; everything the file itself does (attribute reads and
    writes, the LCEL pipe composition, the f-string prompt template, the
    [try]/[except Exception] boundary, the [print] in the handler) is
    written out. *)

From Stdlib Require Import Ascii String QArith.
From stdpp Require Import base strings gmap list option.

(** ** Python strings *)

Module Py.

(** The double quote and the line feed, which a string literal of this
    file cannot hold directly. *)
Definition dq : string := String (Ascii.ascii_of_nat 34) "".
Definition nl : string := String (Ascii.ascii_of_nat 10) "".

(** [sep.join(xs)] *)
Fixpoint join (sep : string) (xs : list string) : string :=
  match xs with
  | [] => ""
  | [x] => x
  | x :: rest => x +:+ sep +:+ join sep rest
  end.

(** [s in t] for strings *)
Definition occurs_in (s t : string) : Prop :=
  ∃ before after, t = before +:+ s +:+ after.

(** *** Exceptions

    Only the part of the class hierarchy that [except Exception] looks
    at is kept: whether the class derives from [Exception] or only from
    [BaseException]. *)
Inductive pyclass :=
| ValueError
| KeyError
| TypeError
| AttributeError
| OtherException (name : string)      (* any other subclass of Exception *)
| KeyboardInterrupt
| SystemExit
| GeneratorExit
| OtherBaseException (name : string). (* any other class outside Exception *)

Record exn := Exn { exn_class : pyclass; exn_str : string (* str(e) *) }.

(** [isinstance(e, Exception)] *)
Definition isinstance_Exception (e : exn) : bool :=
  match exn_class e with
  | KeyboardInterrupt | SystemExit | GeneratorExit | OtherBaseException _ => false
  | _ => true
  end.

(** The result of running a piece of Python: a value or a raised
    exception. *)
Inductive outcome (A : Type) :=
| Return (a : A)
| Raise (e : exn).
Arguments Return {A} a.
Arguments Raise {A} e.

End Py.
Import Py.

(** ** Data of the pipeline *)

(** A retrieved chunk: langchain's [Document]. *)
Record Document := mkDocument {
  page_content : string;
  metadata : gmap string string
}.

(** A chat message; [ChatPromptTemplate.from_template] produces one human
    message, the model answers with an AI message. *)
Inductive role := Human | AI.
Record Message := mkMessage { msg_role : role; content : string }.

(** *** The f-string template of [ChatPromptTemplate.from_template]

    A template is literal text with [{name}] fields; a doubled brace
    stands for one literal brace.  This is the fragment the source's
    template lives in: conversions and format specifications do not
    occur in it and a template using them is refused here. *)
Inductive piece :=
| Lit (s : string)
| Field (name : string).

Inductive scan := InText (acc : string) | InField (acc : string).

Definition lit (acc : string) : list piece :=
  match acc with "" => [] | _ => [Lit acc] end.

Definition snoc (acc : string) (c : ascii) : string := acc +:+ String c "".

Definition plain_field_char (c : ascii) : bool :=
  negb (bool_decide (c ∈ ["{"; "!"; ":"; "."; "["; "]"]%char)).

Fixpoint parse_template (s : string) (st : scan) : option (list piece) :=
  match st, s with
  | InText acc, "" => Some (lit acc)
  | InText acc, String "{" (String "{" rest) => parse_template rest (InText (snoc acc "{"))
  | InText acc, String "}" (String "}" rest) => parse_template rest (InText (snoc acc "}"))
  | InText acc, String "{" rest => (lit acc ++.) <$> parse_template rest (InField "")
  | InText _, String "}" _ => None
  | InText acc, String c rest => parse_template rest (InText (snoc acc c))
  | InField _, "" => None
  | InField "", String "}" _ => None
  | InField acc, String "}" rest => (Field acc ::.) <$> parse_template rest (InText "")
  | InField acc, String c rest =>
      if plain_field_char c then parse_template rest (InField (snoc acc c)) else None
  end.

(** [str.format] on the parsed template, with the keyword arguments
    [kwargs]. *)
Fixpoint render (ps : list piece) (kwargs : gmap string string) : outcome string :=
  match ps with
  | [] => Return ""
  | Lit s :: rest =>
      match render rest kwargs with
      | Return out => Return (s +:+ out)
      | Raise e => Raise e
      end
  | Field name :: rest =>
      match kwargs !! name with
      | None => Raise (Exn KeyError name)
      | Some v =>
          match render rest kwargs with
          | Return out => Return (v +:+ out)
          | Raise e => Raise e
          end
      end
  end.

(** *** Handles held by the service

    A handle records the arguments its constructor was called with; what
    the collaborator does with them is behind [Collaborators]. *)
Record EmbeddingsCfg := mkEmbeddings {
  emb_model : string;
  emb_google_api_key : string
}.

Record ChromaCfg := mkChroma {
  persist_directory : string;
  embedding_function : EmbeddingsCfg
}.

Record RetrieverCfg := mkRetriever {
  vectorstore : ChromaCfg;
  search_kwargs : gmap string nat
}.

(** [temperature] is the decimal literal the constructor call writes; the
    file computes nothing with it. *)
Record LLMCfg := mkLLM {
  llm_model : string;
  llm_google_api_key : string;
  temperature : Q
}.

(** The values an attribute of a [RAGService] object can hold. *)
Inductive Value :=
| VNone
| VStr (s : string)
| VEmbeddings (e : EmbeddingsCfg)
| VChroma (c : ChromaCfg)
| VRetriever (r : RetrieverCfg)
| VLLM (l : LLMCfg)
| VPrompt (t : list piece).

(** Python truthiness, as [if not self.api_key] uses it. *)
Definition truthy (v : Value) : bool :=
  match v with
  | VNone => false
  | VStr "" => false
  | _ => true
  end.

(** A call that left the process, with what came back.  [EvLLM] is one
    [invoke] of the chat client: the client was built without
    [max_retries], so inside one [invoke] the library may send the request
    again on a transient error; those requests are the library's and are
    not counted here. *)
Inductive Event :=
| EvSearch (index : ChromaCfg) (query : string) (k : nat) (result : outcome (list Document))
| EvLLM (client : LLMCfg) (prompt : list Message) (reply : outcome Message).

(** ** The external collaborators

    [similarity_search index query k] is the vector index (it embeds the
    query with the index's embedding function and ranks the stored
    chunks); [llm_generate client prompt] is one [invoke] of the chat
    client.  Both may fail with any exception and may depend on, and
    change, a state of their own.

    [foreign_chain retriever rag_prompt llm input] is what langchain does
    with a chain whose three steps are runnables but not a retriever, a
    prompt and a chat client in this order (the pipe composes any
    runnables): its result, and the calls it made on the way.  The
    constructor never builds such a service; what the library does with
    one is not part of this file and is left open. *)
Class Collaborators := {
  ExtState : Type;
  similarity_search :
    ChromaCfg → string → nat → ExtState → outcome (list Document) * ExtState;
  llm_generate :
    LLMCfg → list Message → ExtState → outcome Message * ExtState;
  foreign_chain :
    Value → Value → Value → gmap string string → ExtState →
    outcome string * ExtState * list Event
}.

Definition VECTOR_DB_DIR : string := "vector_db".

(** langchain_chroma's default number of results, used when
    [search_kwargs] gives no [k]. *)
Definition DEFAULT_K : nat := 4.

Definition rag_prompt_template : string :=
  "
        You are " +:+ dq +:+
  "LawGeeks" +:+ dq +:+
  ", a specialized AI assistant. Your goal is to answer a user's specific question about their legal document, using *only* the provided context.
        
        You have been given three pieces of information:
        1.  **THE USER'S DOCUMENT**: The full text of their agreement.
        2.  **RELEVANT LEGAL CONTEXT**: Snippets from Indian law (e.g., The Contract Act, RERA) that are relevant to the user's question.
        3.  **THE USER'S QUESTION**: The specific question the user asked.

        **INSTRUCTIONS:**
        1.  First, analyze the **USER'S DOCUMENT** to find clauses that relate to the **USER'S QUESTION**.
        2.  Next, use the **RELEVANT LEGAL CONTEXT** to understand the standard legal position or definitions.
        3.  Combine these insights to provide a clear, simple, and direct answer.
        4.  If the user's document is silent on the issue, say so.
        5.  If the user's document *contradicts* the legal context, point this out (e.g., " +:+ dq +:+
  "Your document states X, which is unusual as the standard legal position is Y..." +:+ dq +:+
  ").
        6.  **DO NOT** make up information. If the answer cannot be found in the provided texts, state that you cannot answer.
        7.  **DO NOT** provide legal advice. Frame your answer as " +:+ dq +:+
  "This clause appears to mean..." +:+ dq +:+
  " or " +:+ dq +:+
  "This document states..." +:+ dq +:+
  ".

        ---
        **THE USER'S DOCUMENT:**
        {document_context}
        ---
        **RELEVANT LEGAL CONTEXT:**
        {rag_context}
        ---
        **THE USER'S QUESTION:**
        {question}
        ---

        **Your Answer:**
        ".

Definition fallback_answer : string :=
  "I encountered an error trying to find the answer. Please try rephrasing your question.".

(** ** The interpreter state and the monad of Python code *)

Section Service.
Context {C : Collaborators}.

(** [environ] is [os.environ]; [heap] holds the attribute dictionary of
    every [RAGService] object; [stdout] is what [print] wrote, a line
    per call; [calls] is the trace of calls to the collaborators. *)
Record World := mkWorld {
  environ : gmap string string;
  ext : ExtState;
  heap : gmap nat (gmap string Value);
  stdout : list string;
  calls : list Event
}.

Definition set_heap (h : gmap nat (gmap string Value)) (w : World) : World :=
  mkWorld (environ w) (ext w) h (stdout w) (calls w).
Definition write_stdout (line : string) (w : World) : World :=
  mkWorld (environ w) (ext w) (heap w) (stdout w ++ [line]) (calls w).
Definition record_call (x : ExtState) (ev : Event) (w : World) : World :=
  mkWorld (environ w) x (heap w) (stdout w) (calls w ++ [ev]).
Definition record_calls (x : ExtState) (evs : list Event) (w : World) : World :=
  mkWorld (environ w) x (heap w) (stdout w) (calls w ++ evs).

Definition M (A : Type) : Type := World → outcome A * World.

Definition ret {A} (a : A) : M A := λ w, (Return a, w).
Definition raise {A} (e : exn) : M A := λ w, (Raise e, w).
Definition bind {A B} (m : M A) (k : A → M B) : M B :=
  λ w, match m w with
       | (Return a, w') => k a w'
       | (Raise e, w') => (Raise e, w')
       end.

Notation "x <- m ;; k" := (bind m (λ x, k))
  (at level 100, m at next level, k at level 200, right associativity).
Notation "m ;;; k" := (bind m (λ _, k))
  (at level 100, k at level 200, right associativity).

(** [try: body  except Exception as e: handler e].  An exception whose
    class does not derive from [Exception] is not caught. *)
Definition try_except_Exception {A} (body : M A) (handler : exn → M A) : M A :=
  λ w, match body w with
       | (Return a, w') => (Return a, w')
       | (Raise e, w') =>
           if isinstance_Exception e then handler e w' else (Raise e, w')
       end.

Definition print (line : string) : M unit :=
  λ w, (Return tt, write_stdout line w).

(** [os.getenv(name)] *)
Definition os_getenv (name : string) : M Value :=
  λ w, (Return (from_option VStr VNone (environ w !! name)), w).

(** [object.__new__]: a fresh object without attributes. *)
Definition new_object : M nat :=
  λ w, let self := fresh (dom (heap w)) in
       (Return self, set_heap (<[self := ∅]> (heap w)) w).

(** The text of the [AttributeError] of a missing attribute. *)
Definition no_attribute (name : string) : string :=
  "'RAGService' object has no attribute '" +:+ name +:+ "'".

(** [self.name] *)
Definition getattr (self : nat) (name : string) : M Value :=
  λ w, match heap w !! self ≫= (.!! name) with
       | Some v => (Return v, w)
       | None => (Raise (Exn AttributeError (no_attribute name)), w)
       end.

(** [self.name = v] *)
Definition setattr (self : nat) (name : string) (v : Value) : M unit :=
  λ w, (Return tt,
        set_heap (<[self := <[name := v]> (default ∅ (heap w !! self))]> (heap w)) w).

(** *** Constructors of the handles

    An argument of the wrong type is refused (pydantic's validation
    error is a [ValueError]; [from_template] raises [ValueError] on a
    malformed template). *)
Definition GoogleGenerativeAIEmbeddings (model : string) (google_api_key : Value) : M Value :=
  match google_api_key with
  | VStr key => ret (VEmbeddings (mkEmbeddings model key))
  | _ => raise (Exn ValueError "google_api_key")
  end.

Definition Chroma (persist_directory : string) (embedding_function : Value) : M Value :=
  match embedding_function with
  | VEmbeddings e => ret (VChroma (mkChroma persist_directory e))
  | _ => raise (Exn ValueError "embedding_function")
  end.

Definition as_retriever (vectordb : Value) (search_kwargs : gmap string nat) : M Value :=
  match vectordb with
  | VChroma c => ret (VRetriever (mkRetriever c search_kwargs))
  | _ => raise (Exn AttributeError "as_retriever")
  end.

Definition ChatGoogleGenerativeAI (model : string) (google_api_key : Value) (temperature : Q)
  : M Value :=
  match google_api_key with
  | VStr key => ret (VLLM (mkLLM model key temperature))
  | _ => raise (Exn ValueError "google_api_key")
  end.

Definition from_template (template : string) : M Value :=
  match parse_template template (InText "") with
  | Some ps => ret (VPrompt ps)
  | None => raise (Exn ValueError "Invalid format string")
  end.

(** *** Runnables and the pipe *)
Definition Runnable (A B : Type) : Type := A → M B.

(** [f | g] *)
Definition pipe {A B D} (f : Runnable A B) (g : Runnable B D) : Runnable A D :=
  λ a, b <- f a ;; g b.

(** A plain function used as a step of a chain. *)
Definition RunnableLambda {A B} (f : A → B) : Runnable A B :=
  λ a, ret (f a).

(** [operator.itemgetter(key)] applied to a dict. *)
Definition itemgetter (key : string) : Runnable (gmap string string) string :=
  λ d, match d !! key with
       | Some v => ret v
       | None => raise (Exn KeyError ("'" +:+ key +:+ "'"))
       end.

(** A dict literal of runnables: every branch receives the same input
    and the results are collected under the branches' keys.  Only one
    branch of the chain below reaches a collaborator, so running the
    branches in turn loses nothing. *)
Fixpoint RunnableParallel {A} (steps : list (string * Runnable A string))
    (acc : gmap string string) : Runnable A (gmap string string) :=
  λ a, match steps with
       | [] => ret acc
       | (key, step) :: rest =>
           v <- step a ;; RunnableParallel rest (<[key := v]> acc) a
       end.

(** The retriever built by [as_retriever]: a similarity search with the
    handle's [search_kwargs]. *)
Definition retriever_invoke (r : RetrieverCfg) : Runnable string (list Document) :=
  λ query w,
    let k := default DEFAULT_K (search_kwargs r !! "k") in
    let '(res, x) := similarity_search (vectorstore r) query k (ext w) in
    (res, record_call x (EvSearch (vectorstore r) query k res) w).

(** The prompt: one human message holding the formatted template. *)
Definition prompt_invoke (t : list piece) : Runnable (gmap string string) (list Message) :=
  λ kwargs, match render t kwargs with
            | Return text => ret [mkMessage Human text]
            | Raise e => raise e
            end.

(** One [invoke] of the chat client. *)
Definition llm_invoke (l : LLMCfg) : Runnable (list Message) Message :=
  λ prompt w,
    let '(res, x) := llm_generate l prompt (ext w) in
    (res, record_call x (EvLLM l prompt res) w).

(** [StrOutputParser()]: the text of the model's message. *)
Definition StrOutputParser : Runnable Message string :=
  RunnableLambda content.

(** The handles that are langchain runnables: the retriever, the chat
    client and the prompt.  [None], a string, the embeddings and the
    vector store are not. *)
Definition is_runnable (v : Value) : bool :=
  match v with
  | VRetriever _ | VLLM _ | VPrompt _ => true
  | VNone | VStr _ | VEmbeddings _ | VChroma _ => false
  end.

(** The right operand of [|]: any runnable is accepted as a step; a value
    that is no runnable makes [|] raise [TypeError] (the text of the
    message is the library's and is not kept). *)
Definition coerce_to_runnable (v : Value) : M Value :=
  if is_runnable v then ret v else raise (Exn TypeError "Expected a Runnable").

(** A chain of other runnables than the constructor's: see
    [foreign_chain]. *)
Definition foreign_invoke (retriever rag_prompt llm : Value)
  : Runnable (gmap string string) string :=
  λ input w,
    let '(res, x, evs) := foreign_chain retriever rag_prompt llm input (ext w) in
    (res, record_calls x evs w).

(** ** class RAGService *)

Definition __init__ (self : nat) : M unit :=
  key <- os_getenv "GOOGLE_API_KEY" ;;
  setattr self "api_key" key ;;;
  api_key <- getattr self "api_key" ;;
  if negb (truthy api_key) then raise (Exn ValueError "GOOGLE_API_KEY not set.") else
  (* 1. Initialize Embedding Model *)
  api_key <- getattr self "api_key" ;;
  embeddings <- GoogleGenerativeAIEmbeddings "models/embedding-001" api_key ;;
  setattr self "embeddings" embeddings ;;;
  (* 2. Load the Vector Database *)
  embeddings <- getattr self "embeddings" ;;
  vectordb <- Chroma VECTOR_DB_DIR embeddings ;;
  setattr self "vectordb" vectordb ;;;
  vectordb <- getattr self "vectordb" ;;
  retriever <- as_retriever vectordb {[ "k" := 3 ]} ;;
  setattr self "retriever" retriever ;;;
  (* 3. Initialize LLM *)
  api_key <- getattr self "api_key" ;;
  llm <- ChatGoogleGenerativeAI "models/gemini-pro-latest" api_key (3 # 10) ;;
  setattr self "llm" llm ;;;
  (* 4. Define the RAG Prompt Template *)
  rag_prompt <- from_template rag_prompt_template ;;
  setattr self "rag_prompt" rag_prompt.

(** The call [RAGService()]: allocate, run [__init__], hand the object
    back.  When [__init__] raises, no reference is returned. *)
Definition RAGService : M nat :=
  self <- new_object ;;
  __init__ self ;;;
  ret self.

Definition _format_docs (docs : list Document) : string :=
  join (nl +:+ nl +:+ "---" +:+ nl +:+ nl) (page_content <$> docs).

(** The chain that [answer_user_query] builds from the three handles. *)
Definition rag_chain (retriever : RetrieverCfg) (rag_prompt : list piece) (llm : LLMCfg)
  : Runnable (gmap string string) string :=
  pipe (pipe (pipe
    (RunnableParallel
       [ (* 1. Get 'question', search DB, then format results *)
         ("rag_context",
          pipe (pipe (itemgetter "question") (retriever_invoke retriever))
               (RunnableLambda _format_docs));
         (* 2. Pass the 'question' straight through *)
         ("question", itemgetter "question");
         (* 3. Pass the 'document_context' straight through *)
         ("document_context", itemgetter "document_context") ] ∅)
    (prompt_invoke rag_prompt))
    (llm_invoke llm))
    StrOutputParser.

(** The chain of three runnable steps: [rag_chain] when they are a
    retriever, a prompt and a chat client, as the constructor leaves
    them. *)
Definition compose_chain (retriever rag_prompt llm : Value)
  : Runnable (gmap string string) string :=
  match retriever, rag_prompt, llm with
  | VRetriever r, VPrompt t, VLLM l => rag_chain r t l
  | _, _, _ => foreign_invoke retriever rag_prompt llm
  end.

(** The body of the [try] block of [answer_user_query]: build the
    chain, invoke it, return the response. *)
Definition rag_chain_invoke (self : nat) (document_text user_question : string) : M string :=
  retriever <- (v <- getattr self "retriever" ;; coerce_to_runnable v) ;;
  rag_prompt <- (v <- getattr self "rag_prompt" ;; coerce_to_runnable v) ;;
  llm <- (v <- getattr self "llm" ;; coerce_to_runnable v) ;;
  response <- compose_chain retriever rag_prompt llm
                {[ "question" := user_question;
                   "document_context" := document_text ]} ;;
  ret response.

Definition answer_user_query (self : nat) (document_text user_question : string) : M string :=
  try_except_Exception
    (rag_chain_invoke self document_text user_question)
    (λ e, print ("Error in RAG chain: " +:+ exn_str e) ;;;
          ret fallback_answer).

End Service.

(** ** Vocabulary of the properties *)

(** The separator of [_format_docs], written out. *)
Definition chunk_separator : string :=
  "

---

".

(** The context block in the words of the specification: the chunk texts
    with the separator put between consecutive ones, then everything
    concatenated. *)
Fixpoint between (sep : string) (xs : list string) : list string :=
  match xs with
  | [] => []
  | [x] => [x]
  | x :: rest => x :: sep :: between sep rest
  end.

Definition concat_all (xs : list string) : string := foldr String.app "" xs.

(** A delimited, labeled section of the prompt: the delimiter line, the
    label line, then the body on a line of its own. *)
Definition labeled_section (label body : string) : string :=
  "---" +:+ nl +:+
  "        **" +:+ label +:+ ":**" +:+ nl +:+
  "        " +:+ body +:+ nl +:+
  "        ".

(** The persona and the instruction list: the template up to the first
    delimiter line. *)
Definition prompt_preamble : string :=
  match String.index 0 ("---" +:+ nl +:+ "        **THE USER'S DOCUMENT:**") rag_prompt_template with
  | Some n => String.substring 0 n rag_prompt_template
  | None => ""
  end.

Definition prompt_closing : string :=
  "---" +:+ nl +:+ nl +:+ "        **Your Answer:**" +:+ nl +:+ "        ".

Definition rag_prompt_text (document_context rag_context question : string) : string :=
  prompt_preamble +:+
  labeled_section "THE USER'S DOCUMENT" document_context +:+
  labeled_section "RELEVANT LEGAL CONTEXT" rag_context +:+
  labeled_section "THE USER'S QUESTION" question +:+
  prompt_closing.

Section Vocabulary.
Context {C : Collaborators}.

(** The world while [__init__] runs on the object [self], which holds
    the attributes [attrs] so far. *)
Definition under_construction (self : nat) (attrs : gmap string Value) (w : World) : World :=
  set_heap (<[self := attrs]> (heap w)) w.

(** The attributes of a service built with the credential [key], in the
    order [__init__] assigns them; [t] is the parsed prompt template. *)
Definition service_attrs (key : string) (t : list piece) : gmap string Value :=
  let embeddings := mkEmbeddings "models/embedding-001" key in
  let vectordb := mkChroma VECTOR_DB_DIR embeddings in
  <["rag_prompt" := VPrompt t]>
    (<["llm" := VLLM (mkLLM "models/gemini-pro-latest" key (3 # 10))]>
       (<["retriever" := VRetriever (mkRetriever vectordb {[ "k" := 3 ]})]>
          (<["vectordb" := VChroma vectordb]>
             (<["embeddings" := VEmbeddings embeddings]>
                (<["api_key" := VStr key]> ∅))))).

(** A computation leaves the component [proj] of the world alone. *)
Definition preserves {A X} (proj : World → X) (m : M A) : Prop :=
  ∀ w, proj (m w).2 = proj w.

(** The object at [self] is a service as the constructor left it. *)
Definition constructed (self : nat) (w : World) : Prop :=
  ∃ w0 w1, RAGService w0 = (Return self, w1) ∧ heap w !! self = heap w1 !! self.

(** The object at [self] holds a retriever, a prompt and a chat client
    in the attributes the chain is built from. *)
Definition holds_handles (self : nat) (w : World)
    (r : RetrieverCfg) (t : list piece) (l : LLMCfg) : Prop :=
  heap w !! self ≫= (.!! "retriever") = Some (VRetriever r) ∧
  heap w !! self ≫= (.!! "rag_prompt") = Some (VPrompt t) ∧
  heap w !! self ≫= (.!! "llm") = Some (VLLM l).

(** The index returns no more results than it is asked for. *)
Definition index_honours_k : Prop :=
  ∀ index query k x docs x',
    similarity_search index query k x = (Return docs, x') → length docs ≤ k.

(** [os.environ.pop(name, None)] *)
Definition unsetenv (name : string) (w : World) : World :=
  mkWorld (delete name (environ w)) (ext w) (heap w) (stdout w) (calls w).

Definition is_search (ev : Event) : bool :=
  match ev with EvSearch _ _ _ _ => true | EvLLM _ _ _ => false end.

(** The runs of the chain, stage by stage: what it returns or raises
    and the world it leaves, for the handles [r], [t] and [l]. *)
Inductive chain_run (r : RetrieverCfg) (t : list piece) (l : LLMCfg)
    (document_text user_question : string) (w : World) : outcome string * World → Prop :=
| run_search_fails k e x :
    k = default DEFAULT_K (search_kwargs r !! "k") →
    similarity_search (vectorstore r) user_question k (ext w) = (Raise e, x) →
    chain_run r t l document_text user_question w
      (Raise e, record_call x (EvSearch (vectorstore r) user_question k (Raise e)) w)
| run_prompt_fails k docs x e :
    k = default DEFAULT_K (search_kwargs r !! "k") →
    similarity_search (vectorstore r) user_question k (ext w) = (Return docs, x) →
    render t {[ "document_context" := document_text;
                "question" := user_question;
                "rag_context" := _format_docs docs ]} = Raise e →
    chain_run r t l document_text user_question w
      (Raise e, record_call x (EvSearch (vectorstore r) user_question k (Return docs)) w)
| run_model k docs x text reply x' :
    k = default DEFAULT_K (search_kwargs r !! "k") →
    similarity_search (vectorstore r) user_question k (ext w) = (Return docs, x) →
    render t {[ "document_context" := document_text;
                "question" := user_question;
                "rag_context" := _format_docs docs ]} = Return text →
    llm_generate l [mkMessage Human text] x = (reply, x') →
    chain_run r t l document_text user_question w
      (match reply with Return m => Return (content m) | Raise e => Raise e end,
       record_call x' (EvLLM l [mkMessage Human text] reply)
         (record_call x (EvSearch (vectorstore r) user_question k (Return docs)) w)).

End Vocabulary.

(** ** Stub collaborators and fixtures *)

Module Fixtures.

Definition chunks : list Document :=
  [ mkDocument "RERA Section 5 requires X" {[ "source" := "rera.pdf" ]};
    mkDocument "B" ∅;
    mkDocument "C" {[ "page" := "7" ]};
    mkDocument "D" ∅ ].

(** An index that ranks [chunks] in this order for every query, and a
    model that echoes a fixed string. *)
Definition echo : Collaborators := {|
  ExtState := unit;
  similarity_search := λ _ _ k x, (Return (take k chunks), x);
  llm_generate := λ _ _ x, (Return (mkMessage AI "This document states X."), x);
  foreign_chain := λ _ _ _ _ x, (Raise (Exn TypeError "unsupported chain"), x, [])
|}.

(** The model call fails with an ordinary error. *)
Definition quota_exceeded : Collaborators := {|
  ExtState := unit;
  similarity_search := λ _ _ k x, (Return (take k chunks), x);
  llm_generate := λ _ _ x, (Raise (Exn (OtherException "ResourceExhausted") "429 quota"), x);
  foreign_chain := λ _ _ _ _ x, (Raise (Exn TypeError "unsupported chain"), x, [])
|}.

(** The model call is interrupted from the keyboard. *)
Definition interrupted : Collaborators := {|
  ExtState := unit;
  similarity_search := λ _ _ k x, (Return (take k chunks), x);
  llm_generate := λ _ _ x, (Raise (Exn KeyboardInterrupt ""), x);
  foreign_chain := λ _ _ _ _ x, (Raise (Exn TypeError "unsupported chain"), x, [])
|}.

Definition boot (C : Collaborators) (x : ExtState) (env : gmap string string) : World :=
  mkWorld env x ∅ [] [].

Definition with_key : gmap string string := {[ "GOOGLE_API_KEY" := "secret" ]}.
Definition empty_key : gmap string string := {[ "GOOGLE_API_KEY" := "" ]}.

(** The world after [RAGService()] in a configured environment; the
    service is object [0]. *)
Definition serving (C : Collaborators) (x : ExtState) : World :=
  (RAGService (boot C x with_key)).2.

End Fixtures.

(** ** Vocabulary of the further properties *)

(** The text that separates the body of one section of the prompt from
    the body of the section labeled [label]. *)
Definition section_break (label : string) : string :=
  nl +:+ "        " +:+ "---" +:+ nl +:+
  "        **" +:+ label +:+ ":**" +:+ nl +:+
  "        ".

(** The index and the model client of a service built with the
    credential [key]. *)
Definition service_index (key : string) : ChromaCfg :=
  mkChroma VECTOR_DB_DIR (mkEmbeddings "models/embedding-001" key).
Definition service_client (key : string) : LLMCfg :=
  mkLLM "models/gemini-pro-latest" key (3 # 10).

Section Further_vocabulary.
Context {C : Collaborators}.

(** The object at [self] was returned by [RAGService()] in a world whose
    [GOOGLE_API_KEY] was [key], and holds the same attributes since. *)
Definition built_with (key : string) (self : nat) (w : World) : Prop :=
  ∃ w0 w1,
    environ w0 !! "GOOGLE_API_KEY" = Some key ∧
    RAGService w0 = (Return self, w1) ∧
    heap w !! self = heap w1 !! self.

(** The world [w] with [os.environ] replaced by [env]. *)
Definition with_environ (env : gmap string string) (w : World) : World :=
  mkWorld env (ext w) (heap w) (stdout w) (calls w).

(** A computation that does not read [os.environ]: run in another
    environment it does the same and leaves that environment in place. *)
Definition ignores_environ {A} (m : M A) : Prop :=
  ∀ env w, m (with_environ env w) = ((m w).1, with_environ env (m w).2).

End Further_vocabulary.

(** ** Further fixtures *)

Module More_fixtures.

(** The index cannot be reached. *)
Definition index_down : Collaborators := {|
  ExtState := unit;
  similarity_search := λ _ _ _ x,
    (Raise (Exn (OtherException "ConnectionError") "index unreachable"), x);
  llm_generate := λ _ _ x, (Return (mkMessage AI "This document states X."), x);
  foreign_chain := λ _ _ _ _ x, (Raise (Exn TypeError "unsupported chain"), x, [])
|}.

(** The chat client refuses the request. *)
Definition invalid_request : Collaborators := {|
  ExtState := unit;
  similarity_search := λ _ _ k x, (Return (take k Fixtures.chunks), x);
  llm_generate := λ _ _ x,
    (Raise (Exn (OtherException "ChatGoogleGenerativeAIError")
              "Invalid argument provided to Gemini"), x);
  foreign_chain := λ _ _ _ _ x, (Raise (Exn TypeError "unsupported chain"), x, [])
|}.

(** The index has nothing on the question. *)
Definition empty_index : Collaborators := {|
  ExtState := unit;
  similarity_search := λ _ _ _ x, (Return [], x);
  llm_generate := λ _ _ x, (Return (mkMessage AI "I cannot answer."), x);
  foreign_chain := λ _ _ _ _ x, (Raise (Exn TypeError "unsupported chain"), x, [])
|}.

Definition lease : string := "The tenant shall vacate within 7 days.".
Definition notice : string := "How much notice do I get?".

End More_fixtures.

(** * Properties *)

(** ** Strings *)

Lemma append_cons (c : ascii) (s t : string) : String c s +:+ t = String c (s +:+ t).
Proof. reflexivity. Qed.

Lemma append_assoc (s t u : string) : (s +:+ t) +:+ u = s +:+ (t +:+ u).
Proof. induction s as [|c s IH]; [done | by rewrite !append_cons, IH]. Qed.

Lemma append_nil_r (s : string) : s +:+ "" = s.
Proof. induction s as [|c s IH]; [done | by rewrite append_cons, IH]. Qed.


Lemma occurs_in_refl (s : string) : occurs_in s s.
Proof. exists "", "". by rewrite append_nil_r. Qed.

Lemma occurs_in_append_l (s t u : string) : occurs_in s t → occurs_in s (u +:+ t).
Proof.
  intros (b & a & ->). exists (u +:+ b), a. by rewrite append_assoc.
Qed.

Lemma occurs_in_append_r (s t u : string) : occurs_in s t → occurs_in s (t +:+ u).
Proof.
  intros (b & a & ->). exists b, (a +:+ u). by rewrite !append_assoc.
Qed.

Lemma join_cons (sep x y : string) (rest : list string) :
  join sep (x :: y :: rest) = x +:+ sep +:+ join sep (y :: rest).
Proof. reflexivity. Qed.

Lemma join_between (sep : string) (xs : list string) :
  join sep xs = concat_all (between sep xs).
Proof.
  induction xs as [|x [|y rest] IH].
  - reflexivity.
  - simpl. by rewrite append_nil_r.
  - rewrite join_cons, IH. reflexivity.
Qed.

(** ** The context formatter *)

Lemma format_docs_join (docs : list Document) :
  _format_docs docs = join chunk_separator (page_content <$> docs).
Proof. reflexivity. Qed.

(** C3. [_format_docs] returns the chunk texts, in order, with exactly the
    separator (two line feeds, three dashes, two line feeds) between
    consecutive chunks and nothing else; the empty sequence gives the
    empty string and two chunks with texts A and B give A, the separator,
    B. *)
Theorem format_docs_separates_chunks :
  (∀ docs, _format_docs docs = concat_all (between chunk_separator (page_content <$> docs))) ∧
  (∀ d d' docs,
      _format_docs (d :: d' :: docs) =
      page_content d +:+ chunk_separator +:+ _format_docs (d' :: docs)) ∧
  _format_docs [] = "" ∧
  (∀ m m', _format_docs [mkDocument "A" m; mkDocument "B" m'] = "A" +:+ chunk_separator +:+ "B") ∧
  String.length chunk_separator = 7.
Proof.
  split_and!.
  - intros docs. rewrite format_docs_join. apply join_between.
  - intros d d' docs. rewrite !format_docs_join. apply join_cons.
  - reflexivity.
  - reflexivity.
  - reflexivity.
Qed.

(** C7. On a single chunk [_format_docs] is the identity on its text: no
    separator is emitted. *)
Theorem format_docs_singleton (d : Document) :
  _format_docs [d] = page_content d.
Proof. reflexivity. Qed.

(** C8. The context block depends on the chunk texts only: two retrieval
    results with the same texts and any metadata are formatted alike. *)
Theorem format_docs_ignores_metadata (docs docs' : list Document) :
  page_content <$> docs = page_content <$> docs' →
  _format_docs docs = _format_docs docs'.
Proof. intros Htexts. rewrite !format_docs_join. by rewrite Htexts. Qed.

Lemma format_docs_ignores_metadata_witness :
  _format_docs [mkDocument "A" {[ "source" := "act.pdf" ]}; mkDocument "B" ∅] =
  _format_docs [mkDocument "A" ∅; mkDocument "B" {[ "page" := "12" ]}].
Proof. apply format_docs_ignores_metadata. reflexivity. Defined.

(** ** The prompt *)

Lemma render_rag_prompt (t : list piece) (document_text rag_context question : string) :
  parse_template rag_prompt_template (InText "") = Some t →
  render t {[ "document_context" := document_text;
              "question" := question;
              "rag_context" := rag_context ]} =
  Return (rag_prompt_text document_text rag_context question).
Proof.
  intros Hparse. vm_compute in Hparse. injection Hparse as <-.
  cbn [render].
  replace (_ !! "document_context") with (Some document_text) by reflexivity.
  replace (_ !! "rag_context") with (Some rag_context) by reflexivity.
  replace (_ !! "question") with (Some question) by reflexivity.
  f_equal. unfold rag_prompt_text, labeled_section.
  rewrite !append_assoc. vm_compute. reflexivity.
Qed.

(** ** What a computation leaves alone

    [preserves proj m] is proved along the structure of [m]: for every
    component [proj] of the world that recording a call does not touch,
    and, for the handler, that [print] does not touch either. *)

Section Frame.
Context {C : Collaborators} {X : Type} (proj : World → X).
Hypothesis proj_record_call : ∀ x ev w, proj (record_call x ev w) = proj w.
Hypothesis proj_record_calls : ∀ x evs w, proj (record_calls x evs w) = proj w.

Lemma preserves_ret {A} (a : A) : preserves proj (ret a).
Proof. by intros w. Qed.

Lemma preserves_raise {A} (e : exn) : preserves proj (raise (A := A) e).
Proof. by intros w. Qed.

Lemma preserves_bind {A B} (m : M A) (k : A → M B) :
  preserves proj m → (∀ a, preserves proj (k a)) → preserves proj (bind m k).
Proof.
  intros Hm Hk w. unfold bind. specialize (Hm w).
  destruct (m w) as [[a|e] w1]; cbn [snd] in *; [|done].
  by rewrite Hk.
Qed.

Lemma preserves_try_except {A} (body : M A) (handler : exn → M A) :
  preserves proj body → (∀ e, preserves proj (handler e)) →
  preserves proj (try_except_Exception body handler).
Proof.
  intros Hbody Hhandler w. unfold try_except_Exception. specialize (Hbody w).
  destruct (body w) as [[a|e] w1]; cbn [snd] in *; [done|].
  destruct (isinstance_Exception e); [|done]. by rewrite Hhandler.
Qed.

Lemma preserves_getattr self name : preserves proj (getattr self name).
Proof. intros w. unfold getattr. by destruct (heap w !! self ≫= _). Qed.

Lemma preserves_coerce_to_runnable v : preserves proj (coerce_to_runnable v).
Proof. by destruct v. Qed.

Lemma preserves_foreign_invoke retriever rag_prompt llm input :
  preserves proj (foreign_invoke retriever rag_prompt llm input).
Proof.
  intros w. unfold foreign_invoke.
  destruct (foreign_chain _ _ _ _ _) as [[res x] evs]. apply proj_record_calls.
Qed.

Lemma preserves_itemgetter key d : preserves proj (itemgetter key d).
Proof. intros w. unfold itemgetter. by destruct (d !! key). Qed.

Lemma preserves_retriever_invoke r query : preserves proj (retriever_invoke r query).
Proof.
  intros w. unfold retriever_invoke.
  destruct (similarity_search _ _ _ _) as [res x]. apply proj_record_call.
Qed.

Lemma preserves_llm_invoke l prompt : preserves proj (llm_invoke l prompt).
Proof.
  intros w. unfold llm_invoke.
  destruct (llm_generate _ _ _) as [res x]. apply proj_record_call.
Qed.

Lemma preserves_prompt_invoke t kwargs : preserves proj (prompt_invoke t kwargs).
Proof. intros w. unfold prompt_invoke. by destruct (render t kwargs). Qed.

Lemma preserves_RunnableParallel {A} (steps : list (string * Runnable A string)) acc a :
  Forall (λ step, preserves proj (step.2 a)) steps →
  preserves proj (RunnableParallel steps acc a).
Proof.
  intros Hsteps. revert acc.
  induction Hsteps as [|[key step] rest Hstep _ IH]; intros acc.
  - apply preserves_ret.
  - cbn [RunnableParallel]. apply preserves_bind; [exact Hstep|].
    intros v. apply IH.
Qed.

Ltac frame :=
  repeat first
    [ apply preserves_ret | apply preserves_raise
    | apply preserves_getattr | apply preserves_itemgetter
    | apply preserves_coerce_to_runnable | apply preserves_foreign_invoke
    | apply preserves_retriever_invoke | apply preserves_llm_invoke
    | apply preserves_prompt_invoke
    | apply preserves_bind
    | apply preserves_RunnableParallel
    | apply Forall_cons; split | apply Forall_nil
    | progress intros | progress cbn beta iota delta [snd] ].

Lemma preserves_rag_chain r t l input : preserves proj (rag_chain r t l input).
Proof. unfold rag_chain, pipe, StrOutputParser, RunnableLambda. frame. Qed.

Lemma preserves_compose_chain retriever rag_prompt llm input :
  preserves proj (compose_chain retriever rag_prompt llm input).
Proof.
  unfold compose_chain.
  destruct retriever, rag_prompt, llm;
    first [apply preserves_rag_chain | apply preserves_foreign_invoke].
Qed.

Lemma preserves_rag_chain_invoke self document_text user_question :
  preserves proj (rag_chain_invoke self document_text user_question).
Proof. unfold rag_chain_invoke. frame. apply preserves_compose_chain. Qed.

Hypothesis proj_write_stdout : ∀ line w, proj (write_stdout line w) = proj w.

Lemma preserves_print line : preserves proj (print line).
Proof. intros w. apply proj_write_stdout. Qed.

Lemma preserves_answer_user_query self document_text user_question :
  preserves proj (answer_user_query self document_text user_question).
Proof.
  unfold answer_user_query. apply preserves_try_except.
  - apply preserves_rag_chain_invoke.
  - intros e. apply preserves_bind; [apply preserves_print|]. frame.
Qed.
End Frame.

(** ** The prompt template and the constructor *)

Lemma render_raises_KeyError (t : list piece) (kwargs : gmap string string) (e : exn) :
  render t kwargs = Raise e → exn_class e = KeyError.
Proof.
  revert e. induction t as [|[s|name] rest IH]; intros e Hrender; cbn [render] in Hrender.
  - discriminate.
  - destruct (render rest kwargs); [discriminate|].
    injection Hrender as <-. by apply IH.
  - destruct (kwargs !! name); [|by injection Hrender as <-].
    destruct (render rest kwargs); [discriminate|].
    injection Hrender as <-. by apply IH.
Qed.

Lemma parsed_rag_prompt : ∃ t, parse_template rag_prompt_template (InText "") = Some t.
Proof. eexists. vm_compute. reflexivity. Qed.

Section Construction.
Context {C : Collaborators}.

Lemma setattr_under_construction self attrs name v w :
  setattr self name v (under_construction self attrs w) =
  (Return tt, under_construction self (<[name := v]> attrs) w).
Proof.
  unfold setattr, under_construction, set_heap. cbn [heap environ ext stdout calls].
  by rewrite lookup_insert_eq, insert_insert_eq.
Qed.

Lemma getattr_under_construction self attrs name w :
  getattr self name (under_construction self attrs w) =
  match attrs !! name with
  | Some v => (Return v, under_construction self attrs w)
  | None =>
      (Raise (Exn AttributeError (no_attribute name)), under_construction self attrs w)
  end.
Proof.
  unfold getattr, under_construction, set_heap at 1. cbn [heap].
  by rewrite lookup_insert_eq.
Qed.

Ltac attr_step :=
  first
    [ rewrite setattr_under_construction
    | rewrite getattr_under_construction;
      repeat (rewrite lookup_insert_ne by done); rewrite lookup_insert_eq ].

Lemma init_without_key self w :
  truthy (from_option VStr VNone (environ w !! "GOOGLE_API_KEY")) = false →
  __init__ self (under_construction self ∅ w) =
  (Raise (Exn ValueError "GOOGLE_API_KEY not set."),
   under_construction self
     {[ "api_key" := from_option VStr VNone (environ w !! "GOOGLE_API_KEY") ]} w).
Proof.
  intros Hfalsy. unfold __init__, bind, os_getenv.
  change (environ (under_construction self ∅ w)) with (environ w).
  do 2 attr_step. by rewrite Hfalsy.
Qed.

Lemma init_with_key self w key t :
  environ w !! "GOOGLE_API_KEY" = Some key → key ≠ "" →
  parse_template rag_prompt_template (InText "") = Some t →
  __init__ self (under_construction self ∅ w) =
  (Return tt, under_construction self (service_attrs key t) w).
Proof.
  intros Hkey Hnonempty Hparse. unfold __init__, bind, os_getenv.
  change (environ (under_construction self ∅ w)) with (environ w).
  rewrite Hkey. cbn [from_option]. do 2 attr_step.
  destruct key as [|c key]; [done|]. cbn [truthy negb].
  attr_step. cbn [GoogleGenerativeAIEmbeddings]. unfold ret at 1.
  do 2 attr_step. cbn [Chroma]. unfold ret at 1.
  do 2 attr_step. cbn [as_retriever]. unfold ret at 1.
  do 2 attr_step. cbn [ChatGoogleGenerativeAI]. unfold ret at 1.
  attr_step. unfold from_template. rewrite Hparse. unfold ret at 1.
  attr_step. reflexivity.
Qed.

Lemma RAGService_without_key w :
  truthy (from_option VStr VNone (environ w !! "GOOGLE_API_KEY")) = false →
  RAGService w =
  (Raise (Exn ValueError "GOOGLE_API_KEY not set."),
   under_construction (fresh (dom (heap w)))
     {[ "api_key" := from_option VStr VNone (environ w !! "GOOGLE_API_KEY") ]} w).
Proof.
  intros Hfalsy. unfold RAGService, bind at 1, new_object.
  fold (under_construction (fresh (dom (heap w))) ∅ w).
  unfold bind. by rewrite init_without_key.
Qed.

Lemma RAGService_with_key w key t :
  environ w !! "GOOGLE_API_KEY" = Some key → key ≠ "" →
  parse_template rag_prompt_template (InText "") = Some t →
  RAGService w =
  (Return (fresh (dom (heap w))),
   under_construction (fresh (dom (heap w))) (service_attrs key t) w).
Proof.
  intros Hkey Hnonempty Hparse. unfold RAGService, bind at 1, new_object.
  fold (under_construction (fresh (dom (heap w))) ∅ w).
  unfold bind. by rewrite (init_with_key _ _ key t).
Qed.

Lemma constructed_attrs self w :
  constructed self w →
  ∃ key t, key ≠ "" ∧ parse_template rag_prompt_template (InText "") = Some t ∧
           heap w !! self = Some (service_attrs key t).
Proof.
  intros (w0 & w1 & Hnew & Hsame).
  destruct parsed_rag_prompt as [t Hparse].
  destruct (environ w0 !! "GOOGLE_API_KEY") as [key|] eqn:Hkey.
  - destruct (decide (key = "")) as [->|Hnonempty].
    + rewrite RAGService_without_key in Hnew by (by rewrite Hkey). discriminate.
    + rewrite (RAGService_with_key w0 key t) in Hnew by done.
      injection Hnew as <- <-. exists key, t. split_and!; try done.
      rewrite Hsame. unfold under_construction. cbn [heap set_heap].
      by rewrite lookup_insert_eq.
  - rewrite RAGService_without_key in Hnew by (by rewrite Hkey). discriminate.
Qed.
End Construction.

(** ** The chain *)

Section Chain.
Context {C : Collaborators}.

Lemma rag_chain_runs r t l document_text user_question w :
  chain_run r t l document_text user_question w
    (rag_chain r t l {[ "question" := user_question;
                        "document_context" := document_text ]} w).
Proof.
  unfold rag_chain, pipe, bind. cbn [RunnableParallel]. unfold bind, itemgetter.
  replace (_ !! "question") with (Some user_question) by reflexivity.
  replace (_ !! "document_context") with (Some document_text) by reflexivity.
  unfold retriever_invoke, StrOutputParser, RunnableLambda, ret.
  destruct (similarity_search _ _ _ _) as [[docs|e] x] eqn:Hsearch.
  - unfold prompt_invoke.
    destruct (render t _) as [text|e] eqn:Hrender.
    + unfold ret, llm_invoke. cbn [ext record_call].
      destruct (llm_generate _ _ _) as [reply x'] eqn:Hllm.
      pose proof (run_model r t l document_text user_question w _ docs x text reply x'
                    eq_refl Hsearch Hrender Hllm) as Hrun.
      by destruct reply.
    + unfold raise. by eapply run_prompt_fails.
  - by eapply run_search_fails.
Qed.

Lemma bind_ret_r {A} (m : M A) (w : World) : bind m (λ a, ret a) w = m w.
Proof. unfold bind, ret. by destruct (m w) as [[a|e] w']. Qed.

(** With the three handles in place the [try] block is the chain. *)
Lemma rag_chain_invoke_handles self r t l document_text user_question w :
  heap w !! self ≫= (.!! "retriever") = Some (VRetriever r) →
  heap w !! self ≫= (.!! "rag_prompt") = Some (VPrompt t) →
  heap w !! self ≫= (.!! "llm") = Some (VLLM l) →
  rag_chain_invoke self document_text user_question w =
  rag_chain r t l {[ "question" := user_question;
                     "document_context" := document_text ]} w.
Proof.
  intros Hr Ht Hl. unfold rag_chain_invoke.
  unfold bind at 1 2. unfold getattr at 1. rewrite Hr.
  unfold coerce_to_runnable at 1. cbn [is_runnable]. unfold ret at 1.
  unfold bind at 1 2. unfold getattr at 1. rewrite Ht.
  unfold coerce_to_runnable at 1. cbn [is_runnable]. unfold ret at 1.
  unfold bind at 1 2. unfold getattr at 1. rewrite Hl.
  unfold coerce_to_runnable at 1. cbn [is_runnable]. unfold ret at 1.
  cbn [compose_chain]. apply bind_ret_r.
Qed.

(** With a retriever, a prompt and a chat client in place the [try] block
    runs the chain stage by stage. *)
Lemma rag_chain_invoke_runs self r t l document_text user_question w :
  holds_handles self w r t l →
  chain_run r t l document_text user_question w
    (rag_chain_invoke self document_text user_question w).
Proof.
  intros (Hr & Ht & Hl).
  rewrite (rag_chain_invoke_handles self r t l) by done. apply rag_chain_runs.
Qed.

(** A missing handle or one that is no runnable stops the [try] block
    before any call, with an [AttributeError] or a [TypeError]. *)
Lemma rag_chain_invoke_unbuilt self document_text user_question w name :
  name ∈ ["retriever"; "rag_prompt"; "llm"] →
  match heap w !! self ≫= (.!! name) with
  | Some v => is_runnable v = false
  | None => True
  end →
  ∃ e, rag_chain_invoke self document_text user_question w = (Raise e, w) ∧
       (exn_class e = AttributeError ∨ exn_class e = TypeError).
Proof.
  intros Hname Hbad.
  assert (∀ field,
    (∃ e, bind (getattr self field) (λ v, coerce_to_runnable v) w = (Raise e, w) ∧
          (exn_class e = AttributeError ∨ exn_class e = TypeError)) ∨
    (∃ v, bind (getattr self field) (λ v, coerce_to_runnable v) w = (Return v, w) ∧
          heap w !! self ≫= (.!! field) = Some v ∧ is_runnable v = true)) as Hstep.
  { intros field. unfold bind, getattr.
    destruct (heap w !! self ≫= (.!! field)) as [v|];
      [|left; eexists; split; [reflexivity | by left]].
    unfold coerce_to_runnable. destruct (is_runnable v) eqn:Hv.
    - right. by exists v.
    - left. eexists. split; [reflexivity | by right]. }
  unfold rag_chain_invoke. unfold bind at 1.
  destruct (Hstep "retriever") as [(e & -> & He)|(vr & -> & Hvr & Hrun_r)];
    [by exists e|].
  unfold bind at 1.
  destruct (Hstep "rag_prompt") as [(e & -> & He)|(vt & -> & Hvt & Hrun_t)];
    [by exists e|].
  unfold bind at 1.
  destruct (Hstep "llm") as [(e & -> & He)|(vl & -> & Hvl & Hrun_l)];
    [by exists e|].
  exfalso.
  repeat (apply elem_of_cons in Hname as [->|Hname]);
    [rewrite Hvr in Hbad|rewrite Hvt in Hbad|rewrite Hvl in Hbad|by apply elem_of_nil in Hname];
    congruence.
Qed.

Lemma rag_chain_invoke_service self key t document_text user_question w :
  heap w !! self = Some (service_attrs key t) →
  chain_run
    (mkRetriever (mkChroma VECTOR_DB_DIR (mkEmbeddings "models/embedding-001" key))
                 {[ "k" := 3 ]})
    t (mkLLM "models/gemini-pro-latest" key (3 # 10))
    document_text user_question w
    (rag_chain_invoke self document_text user_question w).
Proof.
  intros Hattrs.
  erewrite rag_chain_invoke_handles; [apply rag_chain_runs|by rewrite Hattrs..].
Qed.
End Chain.

(** ** The boundary of [answer_user_query] *)

Section Boundary.
Context {C : Collaborators}.

Lemma calls_answer_user_query self document_text user_question w :
  calls (answer_user_query self document_text user_question w).2 =
  calls (rag_chain_invoke self document_text user_question w).2.
Proof.
  unfold answer_user_query, try_except_Exception.
  destruct (rag_chain_invoke _ _ _ _) as [[answer|e] w1]; [done|].
  by destruct (isinstance_Exception e).
Qed.

Lemma answer_user_query_fallback self document_text user_question w e w1 :
  rag_chain_invoke self document_text user_question w = (Raise e, w1) →
  isinstance_Exception e = true →
  answer_user_query self document_text user_question w =
  (Return fallback_answer, write_stdout ("Error in RAG chain: " +:+ exn_str e) w1).
Proof.
  intros Hrun Hcaught. unfold answer_user_query, try_except_Exception.
  by rewrite Hrun, Hcaught.
Qed.

(** C1, as the code has it.  Every run of [answer_user_query] ends in one
    of three ways, decided by what the [try] block did.  The chain
    returned: the operation returns that text, nothing is printed, and
    with a retriever, a prompt and a chat client in place the text is the
    content of the message the model replied with.  The chain raised an
    exception deriving from [Exception] (with the handles in place: the
    error of the search, of prompt assembly or of the model call): the
    operation does not raise, it returns the fixed fallback string after
    printing one line with the exception's text.  The chain raised an
    exception outside [Exception]: the [except Exception] clause does not
    catch it, the operation raises it and prints nothing; with the handles
    in place it is the error of the search or of the model call. *)
Theorem answer_user_query_boundary self document_text user_question w :
  (∃ answer w',
      rag_chain_invoke self document_text user_question w = (Return answer, w') ∧
      answer_user_query self document_text user_question w = (Return answer, w') ∧
      stdout w' = stdout w ∧
      ∀ r t l, holds_handles self w r t l →
        ∃ earlier prompt m,
          calls w' = earlier ++ [EvLLM l prompt (Return m)] ∧ answer = content m) ∨
  (∃ e w1,
      rag_chain_invoke self document_text user_question w = (Raise e, w1) ∧
      isinstance_Exception e = true ∧
      answer_user_query self document_text user_question w =
        (Return fallback_answer,
         write_stdout ("Error in RAG chain: " +:+ exn_str e) w1) ∧
      stdout w1 = stdout w ∧
      ∀ r t l, holds_handles self w r t l →
        (∃ earlier k,
            calls w1 = earlier ++ [EvSearch (vectorstore r) user_question k (Raise e)]) ∨
        (exn_class e = KeyError ∧
         ∃ docs, render t {[ "document_context" := document_text;
                             "question" := user_question;
                             "rag_context" := _format_docs docs ]} = Raise e) ∨
        (∃ earlier prompt, calls w1 = earlier ++ [EvLLM l prompt (Raise e)])) ∨
  (∃ e w1,
      rag_chain_invoke self document_text user_question w = (Raise e, w1) ∧
      isinstance_Exception e = false ∧
      answer_user_query self document_text user_question w = (Raise e, w1) ∧
      stdout w1 = stdout w ∧
      ∀ r t l, holds_handles self w r t l →
        (∃ earlier k,
            calls w1 = earlier ++ [EvSearch (vectorstore r) user_question k (Raise e)]) ∨
        (∃ earlier prompt, calls w1 = earlier ++ [EvLLM l prompt (Raise e)])).
Proof.
  pose proof (preserves_rag_chain_invoke stdout (λ _ _ _, eq_refl) (λ _ _ _, eq_refl)
                self document_text user_question w) as Hquiet.
  assert (∀ r t l, holds_handles self w r t l →
            chain_run r t l document_text user_question w
              (rag_chain_invoke self document_text user_question w)) as Hstages
    by (intros r t l; apply rag_chain_invoke_runs).
  unfold answer_user_query, try_except_Exception.
  destruct (rag_chain_invoke self document_text user_question w)
    as [[answer|e] w1] eqn:Hchain; cbn [snd] in Hquiet.
  - left. exists answer, w1. split_and!; try done.
    intros r t l Hhandles. specialize (Hstages r t l Hhandles).
    inversion Hstages as [| |k docs x text reply x' _ _ _ _ Hanswer]; subst.
    destruct reply as [m|]; [|discriminate]. injection Hanswer as <-.
    by eexists _, _, m.
  - destruct (isinstance_Exception e) eqn:Hclass.
    + right. left. exists e, w1. split_and!; try done.
      intros r t l Hhandles. specialize (Hstages r t l Hhandles).
      inversion Hstages
        as [k e' x _ _|k docs x e' _ _ Hrender|k docs x text reply x' _ _ _ _ Hraise]; subst.
      * left. by eexists _, _.
      * right. left. split; [by eapply render_raises_KeyError|by exists docs].
      * destruct reply as [|e']; [discriminate|]. injection Hraise as ->.
        right. right. by eexists _, _.
    + right. right. exists e, w1. split_and!; try done.
      intros r t l Hhandles. specialize (Hstages r t l Hhandles).
      inversion Hstages
        as [k e' x _ _|k docs x e' _ _ Hrender|k docs x text reply x' _ _ _ _ Hraise]; subst.
      * left. by eexists _, _.
      * apply render_raises_KeyError in Hrender.
        unfold isinstance_Exception in Hclass. by rewrite Hrender in Hclass.
      * destruct reply as [|e']; [discriminate|]. injection Hraise as ->.
        right. by eexists _, _.
Qed.
End Boundary.

(** ** The service: construction, retrieval, model calls, frame *)

Section Service_properties.
Context {C : Collaborators}.

(** C2. Without [GOOGLE_API_KEY] in the environment the constructor
    raises [ValueError("GOOGLE_API_KEY not set.")] at once: the exception
    reaches the caller, no reference to a service is returned, nothing is
    printed, no collaborator is called, and the only object left behind
    holds nothing but an [api_key] equal to [None]. *)
Theorem missing_credential_raises w :
  environ w !! "GOOGLE_API_KEY" = None →
  ∃ w',
    RAGService w = (Raise (Exn ValueError "GOOGLE_API_KEY not set."), w') ∧
    stdout w' = stdout w ∧
    calls w' = calls w ∧
    heap w' = <[fresh (dom (heap w)) := {[ "api_key" := VNone ]}]> (heap w).
Proof.
  intros Habsent. eexists. split.
  - apply RAGService_without_key. by rewrite Habsent.
  - rewrite Habsent. by split_and!.
Qed.

(** C9. An empty [GOOGLE_API_KEY] is refused like an absent one: the
    constructor raises [ValueError("GOOGLE_API_KEY not set.")], the very
    outcome it has once the variable is removed from the environment. *)
Theorem empty_credential_raises w :
  environ w !! "GOOGLE_API_KEY" = Some "" →
  (RAGService w).1 = Raise (Exn ValueError "GOOGLE_API_KEY not set.") ∧
  (RAGService w).1 = (RAGService (unsetenv "GOOGLE_API_KEY" w)).1.
Proof.
  intros Hempty.
  rewrite RAGService_without_key by (by rewrite Hempty).
  rewrite RAGService_without_key; [done|].
  cbn [environ unsetenv]. by rewrite lookup_delete_eq.
Qed.

(** C10. [answer_user_query] assigns no attribute: whatever it returns
    or raises, the heap is the one it started from, so every attribute of
    the service reads as before and a constructed service stays
    constructed for the next call. *)
Theorem answer_user_query_leaves_service_unchanged self document_text user_question w :
  let w' := (answer_user_query self document_text user_question w).2 in
  heap w' = heap w ∧
  (∀ field, (getattr self field w').1 = (getattr self field w).1) ∧
  (constructed self w → constructed self w').
Proof.
  intros w'.
  assert (heap w' = heap w) as Hheap.
  { by apply (preserves_answer_user_query heap). }
  split_and!; [done| |].
  - intros field. unfold getattr. rewrite Hheap.
    by destruct (heap w !! self ≫= _).
  - intros (w0 & w1 & Hnew & Hsame). exists w0, w1. by rewrite Hheap.
Qed.

(** The calls a constructed service makes while it answers: one search
    with the question and k = 3, then, when the search returned, one model
    call with the assembled prompt. *)
Lemma service_calls self key t document_text user_question w :
  parse_template rag_prompt_template (InText "") = Some t →
  heap w !! self = Some (service_attrs key t) →
  let index := mkChroma VECTOR_DB_DIR (mkEmbeddings "models/embedding-001" key) in
  let client := mkLLM "models/gemini-pro-latest" key (3 # 10) in
  ∃ result x,
    similarity_search index user_question 3 (ext w) = (result, x) ∧
    calls (answer_user_query self document_text user_question w).2 =
      calls w ++ EvSearch index user_question 3 result ::
        match result with
        | Return docs =>
            let prompt :=
              [mkMessage Human
                 (rag_prompt_text document_text (_format_docs docs) user_question)] in
            [EvLLM client prompt (llm_generate client prompt x).1]
        | Raise _ => []
        end.
Proof.
  intros Hparse Hattrs index client. rewrite calls_answer_user_query.
  pose proof (rag_chain_invoke_service self key t document_text user_question w Hattrs)
    as Hrun.
  remember (rag_chain_invoke self document_text user_question w) as run eqn:Hresult.
  clear Hresult.
  destruct Hrun as [k e x -> Hs|k docs x e -> Hs Hrender|k docs x text reply x' -> Hs Hrender Hreply];
    change (default DEFAULT_K _) with 3 in *; cbn [vectorstore] in *; fold index in Hs |- *.
  - by exists (Raise e), x.
  - by rewrite (render_rag_prompt t) in Hrender.
  - rewrite (render_rag_prompt t) in Hrender by done. injection Hrender as <-.
    exists (Return docs), x. split; [done|]. cbn [snd calls record_call].
    fold client in Hreply |- *. rewrite Hreply. cbn [fst].
    by rewrite <-(assoc_L (++)).
Qed.

(** C4. A constructed service retrieves with the question alone: the
    one search it makes is for [user_question] with k = 3 on its own index,
    the same call with the same result whatever the document text is; an
    index that returns no more than it is asked for returns at most 3
    chunks; and the chunks go into the prompt through [_format_docs] in the
    order the index reported them. *)
Theorem retrieval_is_driven_by_the_question self user_question w :
  constructed self w →
  ∃ index result x,
    similarity_search index user_question 3 (ext w) = (result, x) ∧
    (index_honours_k → ∀ docs, result = Return docs → length docs ≤ 3) ∧
    ∀ document_text, ∃ later,
      calls (answer_user_query self document_text user_question w).2 =
        calls w ++ EvSearch index user_question 3 result :: later ∧
      Forall (λ ev, is_search ev = false) later ∧
      ∀ docs, result = Return docs → ∃ client reply,
        later = [EvLLM client
                   [mkMessage Human
                      (rag_prompt_text document_text (_format_docs docs) user_question)]
                   reply].
Proof.
  intros Hself.
  destruct (constructed_attrs self w Hself) as (key & t & _ & Hparse & Hattrs).
  destruct (service_calls self key t "" user_question w Hparse Hattrs)
    as (result & x & Hsearch & _).
  eexists _, result, x. split_and!; [done| |].
  - intros Hindex docs ->. by eapply Hindex.
  - intros document_text.
    destruct (service_calls self key t document_text user_question w Hparse Hattrs)
      as (result' & x' & Hsearch' & Hcalls).
    rewrite Hsearch in Hsearch'. injection Hsearch' as <- <-.
    eexists. split; [exact Hcalls|]. split.
    + destruct result; repeat constructor.
    + intros docs ->. by eexists _, _.
Qed.

(** C6. A constructed service holds, in its [llm] attribute, the chat
    client the constructor built with temperature 0.3.  Every model call
    that [answer_user_query] makes on it goes through that client, and the
    call is made whenever the search returned. *)
Theorem model_calls_use_temperature_0_3 self w :
  constructed self w →
  ∃ client,
    heap w !! self ≫= (.!! "llm") = Some (VLLM client) ∧
    temperature client = (3 # 10)%Q ∧
    ∀ document_text user_question, ∃ new,
      calls (answer_user_query self document_text user_question w).2 = calls w ++ new ∧
      (∀ client' prompt reply, EvLLM client' prompt reply ∈ new → client' = client) ∧
      (∀ index k docs,
          EvSearch index user_question k (Return docs) ∈ new →
          ∃ prompt reply, EvLLM client prompt reply ∈ new).
Proof.
  intros Hself.
  destruct (constructed_attrs self w Hself) as (key & t & _ & Hparse & Hattrs).
  exists (mkLLM "models/gemini-pro-latest" key (3 # 10)).
  split_and!; [by rewrite Hattrs|done|].
  intros document_text user_question.
  destruct (service_calls self key t document_text user_question w Hparse Hattrs)
    as (result & x & _ & Hcalls).
  eexists. split; [exact Hcalls|]. split.
  - intros client' prompt reply Hin.
    apply elem_of_cons in Hin as [?|Hin]; [done|].
    destruct result; [|by apply elem_of_nil in Hin].
    apply list_elem_of_singleton in Hin. by injection Hin as -> _ _.
  - intros index k docs Hin.
    apply elem_of_cons in Hin as [Hsearch|Hin].
    + injection Hsearch as _ _ <-. eexists _, _. right. left.
    + destruct result; [|by apply elem_of_nil in Hin].
      by apply list_elem_of_singleton in Hin.
Qed.

End Service_properties.

(** ** The fixtures at work *)

Lemma serving_constructed (C : Collaborators) (x : ExtState) :
  constructed 0 (Fixtures.serving C x).
Proof.
  exists (Fixtures.boot C x Fixtures.with_key), (Fixtures.serving C x).
  split; [|done].
  destruct parsed_rag_prompt as [t Hparse].
  unfold Fixtures.serving.
  by rewrite (RAGService_with_key _ "secret" t).
Qed.

Lemma echo_honours_k : index_honours_k (C := Fixtures.echo).
Proof.
  intros index query k x docs x' [= <- _]. rewrite length_take. lia.
Qed.

Example echo_answers :
  (answer_user_query (C := Fixtures.echo) 0
     "The tenant shall vacate within 7 days." "How much notice do I get?"
     (Fixtures.serving Fixtures.echo tt)).1 = Return "This document states X.".
Proof. vm_compute. reflexivity. Qed.

Example echo_retrieves_top_3 :
  ∃ index later,
    calls (answer_user_query (C := Fixtures.echo) 0
             "The tenant shall vacate within 7 days." "How much notice do I get?"
             (Fixtures.serving Fixtures.echo tt)).2 =
    EvSearch index "How much notice do I get?" 3 (Return (take 3 Fixtures.chunks)) :: later.
Proof. eexists _, _. vm_compute. reflexivity. Qed.

Example quota_exceeded_falls_back :
  let run := answer_user_query (C := Fixtures.quota_exceeded) 0
               "The tenant shall vacate within 7 days." "How much notice do I get?"
               (Fixtures.serving Fixtures.quota_exceeded tt) in
  run.1 = Return fallback_answer ∧ stdout run.2 = ["Error in RAG chain: 429 quota"].
Proof. split; vm_compute; reflexivity. Qed.

Lemma answer_user_query_propagates_KeyboardInterrupt :
  (answer_user_query (C := Fixtures.interrupted) 0
     "The tenant shall vacate within 7 days." "How much notice do I get?"
     (Fixtures.serving Fixtures.interrupted tt)).1 = Raise (Exn KeyboardInterrupt "").
Proof. vm_compute. reflexivity. Qed.

Lemma missing_credential_raises_witness :
  ∃ w',
    RAGService (C := Fixtures.echo) (Fixtures.boot Fixtures.echo tt ∅) =
      (Raise (Exn ValueError "GOOGLE_API_KEY not set."), w') ∧
    stdout w' = [] ∧ calls w' = [].
Proof.
  assert (environ (Fixtures.boot Fixtures.echo tt ∅) !! "GOOGLE_API_KEY" = None) as Habsent
    by reflexivity.
  destruct (missing_credential_raises (C := Fixtures.echo) _ Habsent)
    as (w' & Hrun & Hout & Hcalls & _).
  by exists w'.
Defined.

Lemma empty_credential_raises_witness :
  (RAGService (C := Fixtures.echo) (Fixtures.boot Fixtures.echo tt Fixtures.empty_key)).1 =
    Raise (Exn ValueError "GOOGLE_API_KEY not set.").
Proof.
  apply (empty_credential_raises (C := Fixtures.echo) (Fixtures.boot Fixtures.echo tt Fixtures.empty_key)).
  reflexivity.
Defined.

Lemma retrieval_is_driven_by_the_question_witness :
  ∃ index result x,
    similarity_search (Collaborators := Fixtures.echo) index "How much notice do I get?" 3 tt =
      (result, x) ∧
    (∀ docs, result = Return docs → length docs ≤ 3).
Proof.
  destruct (retrieval_is_driven_by_the_question (C := Fixtures.echo) 0
              "How much notice do I get?" (Fixtures.serving Fixtures.echo tt)
              (serving_constructed Fixtures.echo tt))
    as (index & result & x & Hsearch & Hlen & _).
  exists index, result, x. split; [done|]. exact (Hlen echo_honours_k).
Defined.

Lemma model_calls_use_temperature_0_3_witness :
  ∃ client,
    heap (Fixtures.serving Fixtures.echo tt) !! 0 ≫= (.!! "llm") = Some (VLLM client) ∧
    temperature client = (3 # 10)%Q ∧
    ∃ new prompt reply,
      calls (answer_user_query (C := Fixtures.echo) 0
               "The tenant shall vacate within 7 days." "How much notice do I get?"
               (Fixtures.serving Fixtures.echo tt)).2 =
        calls (Fixtures.serving Fixtures.echo tt) ++ new ∧
      EvLLM client prompt reply ∈ new.
Proof.
  destruct (model_calls_use_temperature_0_3 (C := Fixtures.echo) 0
              (Fixtures.serving Fixtures.echo tt) (serving_constructed Fixtures.echo tt))
    as (client & Hattr & Htemp & Hruns).
  exists client. split_and!; [exact Hattr|exact Htemp|].
  destruct (Hruns "The tenant shall vacate within 7 days." "How much notice do I get?")
    as (new & Hcalls & _ & Hcalled).
  destruct (Hcalled (mkChroma VECTOR_DB_DIR (mkEmbeddings "models/embedding-001" "secret"))
              3 (take 3 Fixtures.chunks)) as (prompt & reply & Hin).
  { assert (new = drop 0 (calls (answer_user_query (C := Fixtures.echo) 0
               "The tenant shall vacate within 7 days." "How much notice do I get?"
               (Fixtures.serving Fixtures.echo tt)).2)) as ->.
    { rewrite Hcalls. reflexivity. }
    vm_compute. left. }
  by exists new, prompt, reply.
Defined.

(** * Further properties *)

(** ** Requests on a constructed service *)

Section Requests.
Context {C : Collaborators}.

Lemma built_with_attrs key self w :
  built_with key self w →
  key ≠ "" ∧
  ∃ t, parse_template rag_prompt_template (InText "") = Some t ∧
       heap w !! self = Some (service_attrs key t).
Proof.
  intros (w0 & w1 & Hkey & Hnew & Hsame).
  destruct parsed_rag_prompt as [t Hparse].
  destruct (decide (key = "")) as [->|Hnonempty].
  { rewrite RAGService_without_key in Hnew by (by rewrite Hkey). discriminate. }
  split; [done|]. exists t. split; [done|].
  rewrite (RAGService_with_key w0 key t) in Hnew by done.
  injection Hnew as <- <-. rewrite Hsame.
  unfold under_construction. cbn [heap set_heap]. by rewrite lookup_insert_eq.
Qed.

Lemma service_run self key t document_text user_question w :
  parse_template rag_prompt_template (InText "") = Some t →
  heap w !! self = Some (service_attrs key t) →
  rag_chain_invoke self document_text user_question w =
  match similarity_search (service_index key) user_question 3 (ext w) with
  | (Raise e, x) =>
      (Raise e, record_call x (EvSearch (service_index key) user_question 3 (Raise e)) w)
  | (Return docs, x) =>
      let prompt :=
        [mkMessage Human (rag_prompt_text document_text (_format_docs docs) user_question)] in
      let w1 := record_call x (EvSearch (service_index key) user_question 3 (Return docs)) w in
      match llm_generate (service_client key) prompt x with
      | (Return m, x') =>
          (Return (content m), record_call x' (EvLLM (service_client key) prompt (Return m)) w1)
      | (Raise e, x') =>
          (Raise e, record_call x' (EvLLM (service_client key) prompt (Raise e)) w1)
      end
  end.
Proof.
  intros Hparse Hattrs.
  pose proof (rag_chain_invoke_service self key t document_text user_question w Hattrs)
    as Hrun.
  remember (rag_chain_invoke self document_text user_question w) as run eqn:Hresult.
  clear Hresult.
  destruct Hrun as [k e x -> Hs|k docs x e -> Hs Hrender|k docs x text reply x' -> Hs Hrender Hreply];
    change (default DEFAULT_K _) with 3 in *; cbn [vectorstore] in *;
    fold (service_index key) in Hs |- *; rewrite Hs.
  - done.
  - by rewrite (render_rag_prompt t) in Hrender.
  - rewrite (render_rag_prompt t) in Hrender by done. injection Hrender as <-.
    cbn zeta. fold (service_client key) in Hreply |- *. rewrite Hreply. by destruct reply.
Qed.

Lemma built_with_run key self document_text user_question w :
  built_with key self w →
  rag_chain_invoke self document_text user_question w =
  match similarity_search (service_index key) user_question 3 (ext w) with
  | (Raise e, x) =>
      (Raise e, record_call x (EvSearch (service_index key) user_question 3 (Raise e)) w)
  | (Return docs, x) =>
      let prompt :=
        [mkMessage Human (rag_prompt_text document_text (_format_docs docs) user_question)] in
      let w1 := record_call x (EvSearch (service_index key) user_question 3 (Return docs)) w in
      match llm_generate (service_client key) prompt x with
      | (Return m, x') =>
          (Return (content m), record_call x' (EvLLM (service_client key) prompt (Return m)) w1)
      | (Raise e, x') =>
          (Raise e, record_call x' (EvLLM (service_client key) prompt (Raise e)) w1)
      end
  end.
Proof.
  intros (_ & t & Hparse & Hattrs)%built_with_attrs. by apply (service_run self key t).
Qed.

Lemma answer_user_query_returns self document_text user_question w answer w1 :
  rag_chain_invoke self document_text user_question w = (Return answer, w1) →
  answer_user_query self document_text user_question w = (Return answer, w1).
Proof.
  intros Hrun. unfold answer_user_query, try_except_Exception. by rewrite Hrun.
Qed.

Lemma answer_user_query_propagates self document_text user_question w e w1 :
  rag_chain_invoke self document_text user_question w = (Raise e, w1) →
  isinstance_Exception e = false →
  answer_user_query self document_text user_question w = (Raise e, w1).
Proof.
  intros Hrun Hbase. unfold answer_user_query, try_except_Exception.
  by rewrite Hrun, Hbase.
Qed.
End Requests.

Section Request_properties.
Context {C : Collaborators}.

(** X1. Whenever [RAGService()] returns, the environment held a
    non-empty [GOOGLE_API_KEY]; the object is new; it holds exactly the six
    attributes of [service_attrs]: the key itself, the embeddings and the
    model client built with that same key, the index at [VECTOR_DB_DIR]
    on those embeddings, the retriever on that index with k = 3, and the
    parsed prompt; every other object is as before, and the constructor
    printed nothing, searched nothing and asked the model nothing. *)
Theorem constructor_returns_wired_service w self w' :
  RAGService w = (Return self, w') →
  ∃ key t,
    environ w !! "GOOGLE_API_KEY" = Some key ∧ key ≠ "" ∧
    parse_template rag_prompt_template (InText "") = Some t ∧
    heap w !! self = None ∧
    heap w' = <[self := service_attrs key t]> (heap w) ∧
    environ w' = environ w ∧ ext w' = ext w ∧
    stdout w' = stdout w ∧ calls w' = calls w.
Proof.
  intros Hnew. destruct parsed_rag_prompt as [t Hparse].
  destruct (environ w !! "GOOGLE_API_KEY") as [key|] eqn:Hkey.
  - destruct (decide (key = "")) as [->|Hnonempty].
    + rewrite RAGService_without_key in Hnew by (by rewrite Hkey). discriminate.
    + rewrite (RAGService_with_key w key t) in Hnew by done.
      injection Hnew as <- <-. exists key, t. split_and!; try done.
      apply not_elem_of_dom, is_fresh.
  - rewrite RAGService_without_key in Hnew by (by rewrite Hkey). discriminate.
Qed.

(** X2. On a service built with [key], when the search for the question
    returns [docs] and the model answers the assembled prompt with [m], the
    operation returns the text of [m] and prints nothing; it made exactly
    two calls: the search, then the model call with the prompt of the
    document, the formatted [docs] and the question. *)
Theorem answer_user_query_returns_model_text
    key self document_text user_question w docs x m x' :
  built_with key self w →
  similarity_search (service_index key) user_question 3 (ext w) = (Return docs, x) →
  llm_generate (service_client key)
    [mkMessage Human (rag_prompt_text document_text (_format_docs docs) user_question)] x =
    (Return m, x') →
  ∃ w',
    answer_user_query self document_text user_question w = (Return (content m), w') ∧
    ext w' = x' ∧ stdout w' = stdout w ∧
    calls w' = calls w ++
      [ EvSearch (service_index key) user_question 3 (Return docs);
        EvLLM (service_client key)
          [mkMessage Human (rag_prompt_text document_text (_format_docs docs) user_question)]
          (Return m) ].
Proof.
  intros Hbuilt Hsearch Hllm. eexists. split.
  - apply answer_user_query_returns.
    rewrite (built_with_run key) by done.
    rewrite Hsearch. cbn zeta. rewrite Hllm. reflexivity.
  - cbn [ext stdout calls record_call]. split_and!; try done.
    by rewrite <-(assoc_L (++)).
Qed.

(** X3. On a service built with [key], when the search fails with an
    exception deriving from [Exception], the operation returns the
    fallback string, prints one line with the exception's text, and never
    calls the model: the failed search is the only call. *)
Theorem search_failure_skips_the_model key self document_text user_question w e x :
  built_with key self w →
  similarity_search (service_index key) user_question 3 (ext w) = (Raise e, x) →
  isinstance_Exception e = true →
  ∃ w',
    answer_user_query self document_text user_question w = (Return fallback_answer, w') ∧
    ext w' = x ∧
    stdout w' = stdout w ++ ["Error in RAG chain: " +:+ exn_str e] ∧
    calls w' = calls w ++ [EvSearch (service_index key) user_question 3 (Raise e)].
Proof.
  intros Hbuilt Hsearch Hcaught. eexists. split.
  - apply answer_user_query_fallback; [|exact Hcaught].
    rewrite (built_with_run key) by done. by rewrite Hsearch.
  - done.
Qed.

(** X4. On a service built with [key], when the search returns and the
    [invoke] of the chat client fails with an exception deriving from
    [Exception], the operation returns the fallback string and prints one
    line with the exception's text; the trace holds the search and that
    one [invoke], which the code does not repeat. *)
Theorem model_failure_falls_back key self document_text user_question w docs x e x' :
  built_with key self w →
  similarity_search (service_index key) user_question 3 (ext w) = (Return docs, x) →
  llm_generate (service_client key)
    [mkMessage Human (rag_prompt_text document_text (_format_docs docs) user_question)] x =
    (Raise e, x') →
  isinstance_Exception e = true →
  ∃ w',
    answer_user_query self document_text user_question w = (Return fallback_answer, w') ∧
    ext w' = x' ∧
    stdout w' = stdout w ++ ["Error in RAG chain: " +:+ exn_str e] ∧
    calls w' = calls w ++
      [ EvSearch (service_index key) user_question 3 (Return docs);
        EvLLM (service_client key)
          [mkMessage Human (rag_prompt_text document_text (_format_docs docs) user_question)]
          (Raise e) ].
Proof.
  intros Hbuilt Hsearch Hllm Hcaught. eexists. split.
  - apply answer_user_query_fallback; [|exact Hcaught].
    rewrite (built_with_run key) by done.
    rewrite Hsearch. cbn zeta. by rewrite Hllm.
  - cbn [ext stdout calls record_call write_stdout]. split_and!; try done.
    by rewrite <-(assoc_L (++)).
Qed.

(** X5. On a service built with [key], an exception outside [Exception]
    raised by the search or by the model call leaves [answer_user_query]
    as it is, and nothing is printed. *)
Theorem exception_outside_Exception_propagates
    key self document_text user_question w e :
  built_with key self w →
  isinstance_Exception e = false →
  (∃ x, similarity_search (service_index key) user_question 3 (ext w) = (Raise e, x)) ∨
  (∃ docs x x',
      similarity_search (service_index key) user_question 3 (ext w) = (Return docs, x) ∧
      llm_generate (service_client key)
        [mkMessage Human (rag_prompt_text document_text (_format_docs docs) user_question)] x =
        (Raise e, x')) →
  ∃ w',
    answer_user_query self document_text user_question w = (Raise e, w') ∧
    stdout w' = stdout w.
Proof.
  intros Hbuilt Hbase [(x & Hsearch)|(docs & x & x' & Hsearch & Hllm)]; eexists; split.
  - apply answer_user_query_propagates; [|exact Hbase].
    rewrite (built_with_run key) by done. by rewrite Hsearch.
  - done.
  - apply answer_user_query_propagates; [|exact Hbase].
    rewrite (built_with_run key) by done.
    rewrite Hsearch. cbn zeta. by rewrite Hllm.
  - done.
Qed.

(** X6. The calls of one request, by what the three attributes of the
    chain hold.  When one of them is missing or holds no runnable, no call
    is made.  When they hold a retriever, a prompt and a chat client, of
    any configuration, the request makes one search, for the question and
    with the retriever's k (4 when its [search_kwargs] give none), and
    then at most one [invoke] of the chat client, which is made exactly
    when the search returned and the prompt could be assembled.  The code
    has no loop of its own around either call. *)
Theorem answer_user_query_calls_in_order self document_text user_question w :
  (∀ name,
      name ∈ ["retriever"; "rag_prompt"; "llm"] →
      match heap w !! self ≫= (.!! name) with
      | Some v => is_runnable v = false
      | None => True
      end →
      calls (answer_user_query self document_text user_question w).2 = calls w) ∧
  (∀ r t l,
      holds_handles self w r t l →
      ∃ new,
        calls (answer_user_query self document_text user_question w).2 = calls w ++ new ∧
        let index := vectorstore r in
        let k := default DEFAULT_K (search_kwargs r !! "k") in
        let kwargs docs : gmap string string :=
          {[ "document_context" := document_text;
             "question" := user_question;
             "rag_context" := _format_docs docs ]} in
        ((∃ e, new = [EvSearch index user_question k (Raise e)]) ∨
         (∃ docs e,
             render t (kwargs docs) = Raise e ∧
             new = [EvSearch index user_question k (Return docs)]) ∨
         (∃ docs text reply,
             render t (kwargs docs) = Return text ∧
             new = [ EvSearch index user_question k (Return docs);
                     EvLLM l [mkMessage Human text] reply ]))).
Proof.
  split.
  - intros name Hname Hbad. rewrite calls_answer_user_query.
    destruct (rag_chain_invoke_unbuilt self document_text user_question w name Hname Hbad)
      as (e & -> & _).
    reflexivity.
  - intros r t l Hhandles. rewrite calls_answer_user_query.
    pose proof (rag_chain_invoke_runs self r t l document_text user_question w Hhandles)
      as Hrun.
    remember (rag_chain_invoke self document_text user_question w) as run eqn:Hresult.
    clear Hresult.
    destruct Hrun as [k e x -> _|k docs x e -> _ Hrender|k docs x text reply x' -> _ Hrender _].
    + eexists. split; [done|]. left. by exists e.
    + eexists. split; [done|]. right. left. by exists docs, e.
    + eexists. split; [cbn [snd calls record_call]; by rewrite <-(assoc_L (++))|].
      right. right. by exists docs, text, reply.
Qed.

(** X7. When the index returns no chunk the operation does not stop
    short: the model is still called, with a prompt whose RELEVANT LEGAL
    CONTEXT section has an empty body. *)
Theorem empty_retrieval_still_asks_the_model
    key self document_text user_question w x reply x' :
  built_with key self w →
  similarity_search (service_index key) user_question 3 (ext w) = (Return [], x) →
  llm_generate (service_client key)
    [mkMessage Human (rag_prompt_text document_text "" user_question)] x = (reply, x') →
  calls (answer_user_query self document_text user_question w).2 =
    calls w ++
      [ EvSearch (service_index key) user_question 3 (Return []);
        EvLLM (service_client key)
          [mkMessage Human (rag_prompt_text document_text "" user_question)] reply ] ∧
  occurs_in (labeled_section "RELEVANT LEGAL CONTEXT" "")
    (rag_prompt_text document_text "" user_question).
Proof.
  intros Hbuilt Hsearch Hllm. split.
  - rewrite calls_answer_user_query, (built_with_run key) by done.
    rewrite Hsearch. cbn zeta. change (_format_docs []) with "". rewrite Hllm.
    destruct reply; cbn [snd calls record_call]; by rewrite <-(assoc_L (++)).
  - unfold rag_prompt_text.
    do 2 apply occurs_in_append_l. apply occurs_in_append_r, occurs_in_refl.
Qed.
End Request_properties.

(** ** Requests do not read the environment *)

Section Environment.
Context {C : Collaborators}.

Lemma ignores_environ_ret {A} (a : A) : ignores_environ (ret a).
Proof. by intros env w. Qed.

Lemma ignores_environ_raise {A} (e : exn) : ignores_environ (raise (A := A) e).
Proof. by intros env w. Qed.

Lemma ignores_environ_bind {A B} (m : M A) (k : A → M B) :
  ignores_environ m → (∀ a, ignores_environ (k a)) → ignores_environ (bind m k).
Proof.
  intros Hm Hk env w. unfold bind. rewrite Hm.
  destruct (m w) as [[a|e] w1]; cbn [fst snd]; [apply Hk | done].
Qed.

Lemma ignores_environ_try_except {A} (body : M A) (handler : exn → M A) :
  ignores_environ body → (∀ e, ignores_environ (handler e)) →
  ignores_environ (try_except_Exception body handler).
Proof.
  intros Hbody Hhandler env w. unfold try_except_Exception. rewrite Hbody.
  destruct (body w) as [[a|e] w1]; cbn [fst snd]; [done|].
  destruct (isinstance_Exception e); [apply Hhandler | done].
Qed.

Lemma ignores_environ_getattr self name : ignores_environ (getattr self name).
Proof.
  intros env w. unfold getattr. cbn [heap with_environ].
  by destruct (heap w !! self ≫= _).
Qed.

Lemma ignores_environ_print line : ignores_environ (print line).
Proof. by intros env w. Qed.

Lemma ignores_environ_itemgetter key d : ignores_environ (itemgetter key d).
Proof. intros env w. unfold itemgetter. by destruct (d !! key). Qed.

Lemma ignores_environ_retriever_invoke r query : ignores_environ (retriever_invoke r query).
Proof.
  intros env w. unfold retriever_invoke. cbn [ext with_environ].
  by destruct (similarity_search _ _ _ _).
Qed.

Lemma ignores_environ_llm_invoke l prompt : ignores_environ (llm_invoke l prompt).
Proof.
  intros env w. unfold llm_invoke. cbn [ext with_environ].
  by destruct (llm_generate _ _ _).
Qed.

Lemma ignores_environ_prompt_invoke t kwargs : ignores_environ (prompt_invoke t kwargs).
Proof. intros env w. unfold prompt_invoke. by destruct (render t kwargs). Qed.

Lemma ignores_environ_coerce_to_runnable v : ignores_environ (coerce_to_runnable v).
Proof. by destruct v. Qed.

Lemma ignores_environ_foreign_invoke retriever rag_prompt llm input :
  ignores_environ (foreign_invoke retriever rag_prompt llm input).
Proof.
  intros env w. unfold foreign_invoke. cbn [ext with_environ].
  by destruct (foreign_chain _ _ _ _ _) as [[res x] evs].
Qed.

Lemma ignores_environ_RunnableParallel {A} (steps : list (string * Runnable A string)) acc a :
  Forall (λ step, ignores_environ (step.2 a)) steps →
  ignores_environ (RunnableParallel steps acc a).
Proof.
  intros Hsteps. revert acc.
  induction Hsteps as [|[key step] rest Hstep _ IH]; intros acc.
  - apply ignores_environ_ret.
  - cbn [RunnableParallel]. apply ignores_environ_bind; [exact Hstep|].
    intros v. apply IH.
Qed.

Ltac environ_free :=
  repeat first
    [ apply ignores_environ_ret | apply ignores_environ_raise
    | apply ignores_environ_getattr | apply ignores_environ_itemgetter
    | apply ignores_environ_coerce_to_runnable | apply ignores_environ_foreign_invoke
    | apply ignores_environ_retriever_invoke | apply ignores_environ_llm_invoke
    | apply ignores_environ_prompt_invoke | apply ignores_environ_print
    | apply ignores_environ_try_except
    | apply ignores_environ_bind
    | apply ignores_environ_RunnableParallel
    | apply Forall_cons; split | apply Forall_nil
    | progress intros ].

Lemma ignores_environ_rag_chain r t l input : ignores_environ (rag_chain r t l input).
Proof. unfold rag_chain, pipe, StrOutputParser, RunnableLambda. environ_free. Qed.

Lemma ignores_environ_compose_chain retriever rag_prompt llm input :
  ignores_environ (compose_chain retriever rag_prompt llm input).
Proof.
  unfold compose_chain.
  destruct retriever, rag_prompt, llm;
    first [apply ignores_environ_rag_chain | apply ignores_environ_foreign_invoke].
Qed.

(** X8. [answer_user_query] itself does not read [os.environ]: run in
    any other environment, with the object, the collaborators' state, the
    output and the trace the same, it gives the same outcome and the same
    changes, and leaves that environment in place.  The credential in use
    is the one the constructor stored. *)
Theorem answer_user_query_ignores_environ self document_text user_question env w :
  answer_user_query self document_text user_question (with_environ env w) =
  ((answer_user_query self document_text user_question w).1,
   with_environ env (answer_user_query self document_text user_question w).2).
Proof.
  revert env w.
  change (ignores_environ (answer_user_query self document_text user_question)).
  unfold answer_user_query, rag_chain_invoke.
  environ_free. apply ignores_environ_compose_chain.
Qed.
End Environment.

(** ** More on the context formatter *)

Lemma append_length (s t : string) :
  String.length (s +:+ t) = String.length s + String.length t.
Proof.
  induction s as [|c s IH]; [done|].
  rewrite append_cons. cbn [String.length]. by rewrite IH.
Qed.

Lemma join_app (sep : string) (xs ys : list string) :
  xs ≠ [] → ys ≠ [] →
  join sep (xs ++ ys) = join sep xs +:+ sep +:+ join sep ys.
Proof.
  intros Hxs Hys. induction xs as [|x [|x' xs] IH]; [done| |].
  - destruct ys as [|y ys]; [done|]. reflexivity.
  - change ((x :: x' :: xs) ++ ys) with (x :: ((x' :: xs) ++ ys)).
    change ((x' :: xs) ++ ys) with (x' :: (xs ++ ys)) at 1.
    rewrite join_cons. change (x' :: (xs ++ ys)) with ((x' :: xs) ++ ys).
    rewrite IH by done. rewrite join_cons. by rewrite !append_assoc.
Qed.

(** X9. Formatting distributes over concatenation: for two non-empty
    sequences of chunks, the context block of their concatenation is the
    two context blocks with one separator between them. *)
Theorem format_docs_app (docs docs' : list Document) :
  docs ≠ [] → docs' ≠ [] →
  _format_docs (docs ++ docs') =
  _format_docs docs +:+ chunk_separator +:+ _format_docs docs'.
Proof.
  intros Hdocs Hdocs'. rewrite !format_docs_join, fmap_app.
  apply join_app; by intros ?%fmap_nil_inv.
Qed.

(** X10. No chunk is lost: the text of every chunk of the sequence occurs
    in the context block. *)
Theorem format_docs_holds_every_chunk (d : Document) (docs : list Document) :
  d ∈ docs → occurs_in (page_content d) (_format_docs docs).
Proof.
  intros Hin. rewrite format_docs_join.
  induction docs as [|d0 [|d1 docs] IH]; [by apply elem_of_nil in Hin| |].
  - apply list_elem_of_singleton in Hin as ->. apply occurs_in_refl.
  - change (page_content <$> d0 :: d1 :: docs)
      with (page_content d0 :: page_content d1 :: (page_content <$> docs)).
    rewrite join_cons.
    apply elem_of_cons in Hin as [->|Hin].
    + apply occurs_in_append_r, occurs_in_refl.
    + do 2 apply occurs_in_append_l. by apply IH.
Qed.

(** X11. The context block of a non-empty sequence is as long as its
    chunk texts together plus 7 characters for each of the separators, one
    less than there are chunks. *)
Theorem format_docs_length (docs : list Document) :
  docs ≠ [] →
  String.length (_format_docs docs) =
  sum_list (String.length <$> (page_content <$> docs)) + 7 * (length docs - 1).
Proof.
  intros Hdocs. rewrite format_docs_join.
  induction docs as [|d0 [|d1 docs] IH]; [done| |].
  - change (join chunk_separator (page_content <$> [d0])) with (page_content d0).
    change (sum_list _) with (String.length (page_content d0) + 0).
    change (length [d0]) with 1. lia.
  - change (page_content <$> d0 :: d1 :: docs)
      with (page_content d0 :: page_content d1 :: (page_content <$> docs)).
    rewrite join_cons, !append_length.
    change (page_content d1 :: (page_content <$> docs))
      with (page_content <$> d1 :: docs).
    rewrite IH by done.
    change (String.length chunk_separator) with 7.
    cbn [fmap list_fmap sum_list sum_list_with length]. unfold id. lia.
Qed.

(** X12. The context block does not tell where a chunk ends: two chunks
    give the same block as the single chunk made of the first text, the
    separator and the second text. *)
Theorem format_docs_hides_chunk_boundaries (a b : string) (m m' m'' : gmap string string) :
  _format_docs [mkDocument a m; mkDocument b m'] =
  _format_docs [mkDocument (a +:+ chunk_separator +:+ b) m''].
Proof. reflexivity. Qed.

(** ** More on the prompt *)

Section Prompt_sections.
Context {C : Collaborators}.

(** X13. The template inserts the three values as they are, so a section
    can be forged: a document text that ends with the line break, the
    delimiter and the RELEVANT LEGAL CONTEXT label followed by [b] gives,
    with context [c], the very prompt of the shorter document [a] with
    context [b], the same break, and [c]. *)
Theorem prompt_sections_can_be_forged :
  ∃ t, from_template rag_prompt_template = ret (VPrompt t) ∧
    ∀ a b c question w,
      let forged := a +:+ section_break "RELEVANT LEGAL CONTEXT" +:+ b in
      forged ≠ a ∧
      prompt_invoke t {[ "document_context" := forged;
                         "question" := question;
                         "rag_context" := c ]} w =
      prompt_invoke t {[ "document_context" := a;
                         "question" := question;
                         "rag_context" :=
                           b +:+ section_break "RELEVANT LEGAL CONTEXT" +:+ c ]} w.
Proof.
  destruct parsed_rag_prompt as [t Hparse].
  exists t. split; [unfold from_template; by rewrite Hparse|].
  intros a b c question w forged. split.
  - intros Hsame.
    assert (a +:+ section_break "RELEVANT LEGAL CONTEXT" +:+ b = a +:+ "") as Hsame'
      by (by rewrite append_nil_r).
    apply (inj (String.append a)) in Hsame'. discriminate Hsame'.
  - unfold prompt_invoke. rewrite !(render_rag_prompt t) by done.
    do 3 f_equal. unfold forged, rag_prompt_text, labeled_section, section_break.
    rewrite !append_assoc. reflexivity.
Qed.
End Prompt_sections.

(** ** The further fixtures at work *)

Lemma serving_built_with (C : Collaborators) (x : ExtState) :
  built_with "secret" 0 (Fixtures.serving C x).
Proof.
  exists (Fixtures.boot C x Fixtures.with_key), (Fixtures.serving C x).
  split_and!; [done| |done].
  destruct parsed_rag_prompt as [t Hparse].
  unfold Fixtures.serving.
  by rewrite (RAGService_with_key _ "secret" t).
Qed.

Lemma constructor_returns_wired_service_witness :
  ∃ key,
    environ (Fixtures.boot Fixtures.echo tt Fixtures.with_key) !! "GOOGLE_API_KEY" = Some key ∧
    key ≠ "" ∧
    calls (Fixtures.serving Fixtures.echo tt) = [].
Proof.
  assert (RAGService (Fixtures.boot Fixtures.echo tt Fixtures.with_key) =
          (Return 0, Fixtures.serving Fixtures.echo tt)) as Hnew.
  { destruct parsed_rag_prompt as [t Hparse]. unfold Fixtures.serving.
    by rewrite (RAGService_with_key _ "secret" t). }
  destruct (constructor_returns_wired_service _ _ _ Hnew)
    as (key & t & Hkey & Hnonempty & _ & _ & _ & _ & _ & _ & Hcalls).
  exists key. split_and!; done.
Defined.

Lemma answer_user_query_returns_model_text_witness :
  ∃ w',
    answer_user_query (C := Fixtures.echo) 0 More_fixtures.lease More_fixtures.notice
      (Fixtures.serving Fixtures.echo tt) =
    (Return "This document states X.", w') ∧ stdout w' = [].
Proof.
  destruct (answer_user_query_returns_model_text (C := Fixtures.echo)
              "secret" 0 More_fixtures.lease More_fixtures.notice
              (Fixtures.serving Fixtures.echo tt)
              (take 3 Fixtures.chunks) tt (mkMessage AI "This document states X.") tt
              (serving_built_with Fixtures.echo tt) eq_refl eq_refl)
    as (w' & Hrun & _ & Hout & _).
  exists w'. split; [exact Hrun|]. rewrite Hout. reflexivity.
Defined.

Lemma search_failure_skips_the_model_witness :
  ∃ w',
    answer_user_query (C := More_fixtures.index_down) 0
      More_fixtures.lease More_fixtures.notice
      (Fixtures.serving More_fixtures.index_down tt) = (Return fallback_answer, w') ∧
    calls w' =
      [EvSearch (service_index "secret") More_fixtures.notice 3
         (Raise (Exn (OtherException "ConnectionError") "index unreachable"))].
Proof.
  destruct (search_failure_skips_the_model (C := More_fixtures.index_down)
              "secret" 0 More_fixtures.lease More_fixtures.notice
              (Fixtures.serving More_fixtures.index_down tt)
              (Exn (OtherException "ConnectionError") "index unreachable") tt
              (serving_built_with More_fixtures.index_down tt) eq_refl eq_refl)
    as (w' & Hrun & _ & _ & Hcalls).
  exists w'. split; [exact Hrun|]. rewrite Hcalls. reflexivity.
Defined.

Lemma model_failure_falls_back_witness :
  ∃ w',
    answer_user_query (C := More_fixtures.invalid_request) 0
      More_fixtures.lease More_fixtures.notice
      (Fixtures.serving More_fixtures.invalid_request tt) = (Return fallback_answer, w') ∧
    stdout w' = ["Error in RAG chain: Invalid argument provided to Gemini"].
Proof.
  destruct (model_failure_falls_back (C := More_fixtures.invalid_request)
              "secret" 0 More_fixtures.lease More_fixtures.notice
              (Fixtures.serving More_fixtures.invalid_request tt)
              (take 3 Fixtures.chunks) tt
              (Exn (OtherException "ChatGoogleGenerativeAIError")
                 "Invalid argument provided to Gemini") tt
              (serving_built_with More_fixtures.invalid_request tt)
              eq_refl eq_refl eq_refl)
    as (w' & Hrun & _ & Hout & _).
  exists w'. split; [exact Hrun|]. rewrite Hout. reflexivity.
Defined.

Lemma exception_outside_Exception_propagates_witness :
  ∃ w',
    answer_user_query (C := Fixtures.interrupted) 0
      More_fixtures.lease More_fixtures.notice
      (Fixtures.serving Fixtures.interrupted tt) = (Raise (Exn KeyboardInterrupt ""), w') ∧
    stdout w' = [].
Proof.
  destruct (exception_outside_Exception_propagates (C := Fixtures.interrupted)
              "secret" 0 More_fixtures.lease More_fixtures.notice
              (Fixtures.serving Fixtures.interrupted tt) (Exn KeyboardInterrupt "")
              (serving_built_with Fixtures.interrupted tt) eq_refl)
    as (w' & Hrun & Hout).
  { right. by exists (take 3 Fixtures.chunks), tt, tt. }
  exists w'. split; [exact Hrun|]. rewrite Hout. reflexivity.
Defined.

Lemma empty_retrieval_still_asks_the_model_witness :
  calls (answer_user_query (C := More_fixtures.empty_index) 0
           More_fixtures.lease More_fixtures.notice
           (Fixtures.serving More_fixtures.empty_index tt)).2 =
    [ EvSearch (service_index "secret") More_fixtures.notice 3 (Return []);
      EvLLM (service_client "secret")
        [mkMessage Human (rag_prompt_text More_fixtures.lease "" More_fixtures.notice)]
        (Return (mkMessage AI "I cannot answer.")) ].
Proof.
  destruct (empty_retrieval_still_asks_the_model (C := More_fixtures.empty_index)
              "secret" 0 More_fixtures.lease More_fixtures.notice
              (Fixtures.serving More_fixtures.empty_index tt) tt
              (Return (mkMessage AI "I cannot answer.")) tt
              (serving_built_with More_fixtures.empty_index tt) eq_refl eq_refl)
    as [Hcalls _].
  rewrite Hcalls. reflexivity.
Defined.

Lemma format_docs_app_witness :
  _format_docs (take 2 Fixtures.chunks ++ drop 2 Fixtures.chunks) =
  _format_docs (take 2 Fixtures.chunks) +:+ chunk_separator +:+
  _format_docs (drop 2 Fixtures.chunks).
Proof. apply format_docs_app; discriminate. Defined.

Lemma format_docs_holds_every_chunk_witness :
  occurs_in "C" (_format_docs Fixtures.chunks).
Proof.
  apply (format_docs_holds_every_chunk (mkDocument "C" {[ "page" := "7" ]})).
  unfold Fixtures.chunks. repeat constructor.
Defined.

Lemma format_docs_length_witness :
  String.length (_format_docs Fixtures.chunks) = 25 + 1 + 1 + 1 + 7 * 3.
Proof.
  rewrite (format_docs_length Fixtures.chunks) by discriminate. reflexivity.
Defined.
